(** * Controls: the quickstart mappers and the mapper test harness

    A shallow embedding of
      - quickstart/simple.boolean.check/mappers/detail.py   (module [detail])
      - quickstart/simple.boolean.check/mappers/display.py  (module [display])
      - testing/mappers/conftest.py                         (module [conftest])
      - testing/mappers/test_detail.py                      (module [test_detail])
      - testing/mappers/test_display.py                     (module [test_display])

    Python values are the values [json.load] produces.  Python code is embedded
    in a state-and-exception monad over an abstract interpreter state, so that
    "raises", "has no side effect" and "does not depend on hidden state" are
    statements about the embedded code. *)

From Stdlib Require Import ZArith List String Ascii Bool Lia PrimFloat.
From Stdlib Require Import DecimalString.
From Stdlib Require SpecFloat FloatAxioms.
Import ListNotations.
Open Scope string_scope.

(** ** Python values and the builtins the sources use *)

Module Py.

(** What [json.load] returns: [None], [bool], [int], [float], [str], [list]
    and [dict] with string keys.  A dict is kept in insertion order; a key is
    looked up at its first entry. *)
Unset Elimination Schemes.
Inductive value : Type :=
| VNone
| VBool (b : bool)
| VInt (z : Z)
| VFloat (f : float)
| VStr (s : string)
| VList (l : list value)
| VDict (d : list (string * value)).
Set Elimination Schemes.

(** Induction on a value, with the premise for every element of a list and
    for the value of every entry of a dict *)
Section ValueInd.
Variable P : value -> Prop.
Hypothesis case_None : P VNone.
Hypothesis case_Bool : forall b, P (VBool b).
Hypothesis case_Int : forall z, P (VInt z).
Hypothesis case_Float : forall f, P (VFloat f).
Hypothesis case_Str : forall s, P (VStr s).
Hypothesis case_List : forall l, Forall P l -> P (VList l).
Hypothesis case_Dict :
  forall d, Forall (fun kv => P (snd kv)) d -> P (VDict d).

Fixpoint value_ind (v : value) : P v :=
  match v with
  | VNone => case_None
  | VBool b => case_Bool b
  | VInt z => case_Int z
  | VFloat f => case_Float f
  | VStr s => case_Str s
  | VList l =>
      case_List l
        ((fix elements (l : list value) : Forall P l :=
            match l with
            | [] => Forall_nil P
            | x :: l' => Forall_cons x (value_ind x) (elements l')
            end) l)
  | VDict d =>
      case_Dict d
        ((fix entries (d : list (string * value))
            : Forall (fun kv => P (snd kv)) d :=
            match d with
            | [] => Forall_nil _
            | kv :: d' =>
                Forall_cons (P := fun kv => P (snd kv)) kv
                            (value_ind (snd kv)) (entries d')
            end) d)
  end.
End ValueInd.

(** Exceptions.  [Failed] is what [pytest.fail] raises; it derives from
    [BaseException], not from [Exception]. *)
Inductive exn : Type :=
| AttributeError (msg : string)
| TypeError (msg : string)
| AssertionError (msg : string)
| Failed (msg : string).

Inductive res (A : Type) : Type :=
| Ok (a : A)
| Raise (e : exn).
Arguments Ok {A} a.
Arguments Raise {A} e.

(** A computation runs in an interpreter state [World] (globals, clock,
    random generator, ...) and returns a result or an exception together with
    the state it leaves. *)
Definition M (World A : Type) : Type := World -> res A * World.

Definition ret {World A} (a : A) : M World A := fun w => (Ok a, w).

Definition raise {World A} (e : exn) : M World A := fun w => (Raise e, w).

Definition bind {World A B} (m : M World A) (k : A -> M World B) : M World B :=
  fun w =>
    match m w with
    | (Ok a, w') => k a w'
    | (Raise e, w') => (Raise e, w')
    end.

(** [isinstance(e, Exception)] *)
Definition is_Exception (e : exn) : bool :=
  match e with
  | Failed _ => false
  | _ => true
  end.

(** [try: body  except Exception as e: handler(e)] *)
Definition try_except {World A} (body : M World A) (handler : exn -> M World A)
  : M World A :=
  fun w =>
    match body w with
    | (Ok a, w') => (Ok a, w')
    | (Raise e, w') => if is_Exception e then handler e w' else (Raise e, w')
    end.

(** [try: body  except (TypeError, AttributeError): handler] *)
Definition is_TypeError_or_AttributeError (e : exn) : bool :=
  match e with
  | TypeError _ | AttributeError _ => true
  | _ => false
  end.

Definition try_except_type_attr {World A} (body : M World A) (handler : M World A)
  : M World A :=
  fun w =>
    match body w with
    | (Ok a, w') => (Ok a, w')
    | (Raise e, w') =>
        if is_TypeError_or_AttributeError e then handler w' else (Raise e, w')
    end.

(** [assert cond, msg] *)
Definition assert_ {World} (cond : bool) (msg : string) : M World unit :=
  if cond then ret tt else raise (AssertionError msg).

(** [for x in xs: body(x)] *)
Fixpoint for_each {World A} (xs : list A) (body : A -> M World unit)
  : M World unit :=
  match xs with
  | [] => ret tt
  | x :: xs' => bind (body x) (fun _ => for_each xs' body)
  end.

(** [type(obj).__name__] *)
Definition type_name (obj : value) : string :=
  match obj with
  | VNone => "NoneType"
  | VBool _ => "bool"
  | VInt _ => "int"
  | VFloat _ => "float"
  | VStr _ => "str"
  | VList _ => "list"
  | VDict _ => "dict"
  end.

(** [type(obj1) == type(obj2)] *)
Definition same_type (obj1 obj2 : value) : bool :=
  match obj1, obj2 with
  | VNone, VNone
  | VBool _, VBool _
  | VInt _, VInt _
  | VFloat _, VFloat _
  | VStr _, VStr _
  | VList _, VList _
  | VDict _, VDict _ => true
  | _, _ => false
  end.

Definition is_dict (obj : value) : bool :=
  match obj with
  | VDict _ => true
  | _ => false
  end.

(** [d[key]] on the entries of a dict, [None] when the key is absent *)
Fixpoint lookup {A} (key : string) (d : list (string * A)) : option A :=
  match d with
  | [] => None
  | (k, v) :: d' => if String.eqb k key then Some v else lookup key d'
  end.

(** [d.keys()] *)
Definition keys {A} (d : list (string * A)) : list string := map fst d.

(** [key in d] for a dict [d] *)
Definition has_key {A} (key : string) (d : list (string * A)) : bool :=
  match lookup key d with
  | Some _ => true
  | None => false
  end.

(** [d[key] = v]: an existing key keeps its place, a new key goes last. *)
Fixpoint dict_set (d : list (string * value)) (key : string) (v : value)
  : list (string * value) :=
  match d with
  | [] => [(key, v)]
  | (k, v0) :: d' =>
      if String.eqb k key then (k, v) :: d' else (k, v0) :: dict_set d' key v
  end.

(** [obj.get(key, default)]: only a dict has the method. *)
Definition get {World} (obj : value) (key : string) (default : value)
  : M World value :=
  match obj with
  | VDict d =>
      ret (match lookup key d with
           | Some v => v
           | None => default
           end)
  | _ =>
      raise (AttributeError
               ("'" ++ type_name obj ++ "' object has no attribute 'get'"))
  end.

(** [{**obj, key: v}] *)
Definition splat_with {World} (obj : value) (key : string) (v : value)
  : M World value :=
  match obj with
  | VDict d => ret (VDict (dict_set d key v))
  | _ => raise (TypeError ("'" ++ type_name obj ++ "' object is not a mapping"))
  end.

(** [sub in s] for strings *)
Fixpoint contains (sub s : string) : bool :=
  if String.prefix sub s then true
  else match s with
       | EmptyString => false
       | String _ s' => contains sub s'
       end.

(** [key in obj] for a string [key] *)
Definition py_in {World} (key : string) (obj : value) : M World bool :=
  match obj with
  | VDict d => ret (has_key key d)
  | VList l =>
      ret (existsb (fun v => match v with
                             | VStr s => String.eqb key s
                             | _ => false
                             end) l)
  | VStr s => ret (contains key s)
  | _ =>
      raise (TypeError
               ("argument of type '" ++ type_name obj ++ "' is not iterable"))
  end.

(** [str(z)] for an int *)
Definition str_int (z : Z) : string := NilZero.string_of_int (Z.to_int z).

Definition str_nat (n : nat) : string := str_int (Z.of_nat n).

(** [sep.join(xs)] *)
Fixpoint join (sep : string) (xs : list string) : string :=
  match xs with
  | [] => ""
  | [x] => x
  | x :: xs' => x ++ sep ++ join sep xs'
  end.

(** How CPython prints a float ([repr(f)], the shortest round-tripping
    decimal) and quotes a string ([repr(s)]) is not part of the repository;
    both are taken as given. *)
Class Repr : Type := {
  repr_float : float -> string;
  repr_str : string -> string
}.

Section Printing.
Context {R : Repr}.

(** [repr(obj)] *)
Fixpoint repr (obj : value) : string :=
  match obj with
  | VNone => "None"
  | VBool true => "True"
  | VBool false => "False"
  | VInt z => str_int z
  | VFloat f => repr_float f
  | VStr s => repr_str s
  | VList l => "[" ++ join ", " (map repr l) ++ "]"
  | VDict d =>
      "{" ++ join ", " (map (fun kv => repr_str (fst kv) ++ ": " ++ repr (snd kv)) d)
          ++ "}"
  end.

(** [str(obj)], which is also [format(obj, '')], what an f-string field
    [{obj}] inserts *)
Definition str (obj : value) : string :=
  match obj with
  | VStr s => s
  | _ => repr obj
  end.
End Printing.

(** [str(e)] for an exception: its message *)
Definition str_exn (e : exn) : string :=
  match e with
  | AttributeError msg | TypeError msg | AssertionError msg | Failed msg => msg
  end.

(** [obj1 != obj2] for two scalars of the same type.  Floats compare as
    IEEE 754 doubles. *)
Definition scalar_ne (obj1 obj2 : value) : bool :=
  match obj1, obj2 with
  | VNone, VNone => false
  | VBool a, VBool b => negb (Bool.eqb a b)
  | VInt a, VInt b => negb (Z.eqb a b)
  | VFloat a, VFloat b => negb (PrimFloat.eqb a b)
  | VStr a, VStr b => negb (String.eqb a b)
  | _, _ => true
  end.

(** [d.items()]: every key once, with the value [d[key]] (its first entry),
    in the order of the keys *)
Fixpoint items_from {A} (seen : list string) (d : list (string * A))
  : list (string * A) :=
  match d with
  | [] => []
  | (k, v) :: d' =>
      if existsb (String.eqb k) seen then items_from seen d'
      else (k, v) :: items_from (k :: seen) d'
  end.

Definition items {A} (d : list (string * A)) : list (string * A) :=
  items_from [] d.

Definition is_list (obj : value) : bool :=
  match obj with
  | VList _ => true
  | _ => false
  end.

(** [len(obj) > 0] *)
Definition len_positive {World} (obj : value) : M World bool :=
  match obj with
  | VDict d => ret (match d with [] => false | _ :: _ => true end)
  | VList l => ret (match l with [] => false | _ :: _ => true end)
  | VStr s => ret (match s with EmptyString => false | String _ _ => true end)
  | _ =>
      raise (TypeError ("object of type '" ++ type_name obj ++ "' has no len()"))
  end.

(** [if key in obj: then_(obj[key])] for a string [key].  In a dict the
    subscript finds the key the test found; a list or a string that holds the
    key cannot be subscripted with it. *)
Definition if_in_then_item {World} (key : string) (obj : value)
           (then_ : value -> M World unit) : M World unit :=
  match obj with
  | VDict d =>
      match lookup key d with
      | Some item => then_ item
      | None => ret tt
      end
  | VList l =>
      if existsb (fun v => match v with
                           | VStr s => String.eqb key s
                           | _ => false
                           end) l
      then raise (TypeError "list indices must be integers or slices, not str")
      else ret tt
  | VStr s =>
      if contains key s
      then raise (TypeError "string indices must be integers, not 'str'")
      else ret tt
  | _ =>
      raise (TypeError
               ("argument of type '" ++ type_name obj ++ "' is not iterable"))
  end.

End Py.

Import Py.

Declare Scope py_scope.
Delimit Scope py_scope with py.
Notation "x <- c ;; k" := (bind c (fun x => k))
  (at level 61, c at next level, right associativity) : py_scope.
Notation "c ;;; k" := (bind c (fun _ => k))
  (at level 61, right associativity) : py_scope.
Open Scope py_scope.

(** ** quickstart/simple.boolean.check/mappers/detail.py *)

Module detail.

Definition main {World} (occurrence context : value) : M World value :=
  (* Extract the value from the occurrence *)
  detail <- get occurrence "detail" (VDict []) ;;
  value <- get detail "check_passed" (VBool false) ;;
  (* Return it in a structure the rule expects *)
  ret (VDict [("passed", value)]).

End detail.

(** ** quickstart/simple.boolean.check/mappers/display.py *)

Module display.

Definition main {World} {R : Repr} (occurrence attestation context : value)
  : M World value :=
  detail <- get occurrence "detail" (VDict []) ;;
  passed <- get detail "passed" (VBool false) ;;
  ret (VDict [("description",
               VStr "A simple boolean check - the most minimal control possible");
              ("tag", VStr ("Value: " ++ str passed))]).

End display.

(** ** testing/mappers/conftest.py *)

Module conftest.

(** The order in which a Python [set] of strings is iterated is fixed by the
    hashes of its elements, which CPython salts per process.  All the source
    can rely on is that the iteration visits exactly the elements of the
    set. *)
Class SetIter : Type := {
  set_iter : list string -> list string;
  set_iter_In : forall l k, In k (set_iter l) <-> In k l
}.

Definition empty_occurrence : value :=
  VDict [("asset", VDict [("key", VStr "org/repo");
                          ("name", VStr "repo");
                          ("type", VDict [("category", VStr "software");
                                          ("code", VInt 3000);
                                          ("name", VStr "repository")])]);
         ("detail", VDict []);
         ("status", VStr "complete");
         ("type", VStr "occurrence")].

Definition empty_context : value := VDict [].

Definition empty_attestation : value := VDict [].

Definition sample_policy : value := VDict [("required", VBool true)].

Definition sample_attestation : value :=
  VDict [("policy", VDict [("data", sample_policy)]);
         ("result", VStr "pass")].

Section JsonDiff.
Context {R : Repr} {SI : SetIter}.

(** [if sub_diff: diffs.append(sub_diff)] *)
Definition append_if_nonempty (sub_diff : string) : list string :=
  match sub_diff with
  | EmptyString => []
  | _ => [sub_diff]
  end.

(** [_diff] of the fixture [json_diff].  The recursion is on [obj1]: for a
    dict, [subs] holds for every entry of [obj1] the comparison of its value
    against a value and a path still to come, so that [obj1[key]] compared
    with [obj2[key]] is [subs[key]] applied to [obj2[key]]. *)
Fixpoint _diff (obj1 obj2 : value) (path : string) {struct obj1} : string :=
  if negb (same_type obj1 obj2) then
    path ++ ": Type mismatch " ++ type_name obj1 ++ " vs " ++ type_name obj2
  else
    match obj1, obj2 with
    | VDict d1, VDict d2 =>
        let all_keys := set_iter (keys d1 ++ keys d2) in
        let subs := map (fun kv => (fst kv, _diff (snd kv))) d1 in
        let diffs :=
          flat_map
            (fun key =>
               match lookup key subs with
               | None => [path ++ "." ++ key ++ ": Missing in first object"]
               | Some diff1 =>
                   match lookup key d2 with
                   | None =>
                       [path ++ "." ++ key ++ ": Missing in second object"]
                   | Some v2 =>
                       append_if_nonempty (diff1 v2 (path ++ "." ++ key))
                   end
               end)
            all_keys in
        join (String "010" "") diffs
    | VList l1, VList l2 =>
        if negb (Nat.eqb (List.length l1) (List.length l2)) then
          path ++ ": List length mismatch " ++ str_nat (List.length l1)
               ++ " vs " ++ str_nat (List.length l2)
        else
          let diffs :=
            (fix enumerate_zip (i : nat) (l1 l2 : list value) : list string :=
               match l1, l2 with
               | item1 :: l1', item2 :: l2' =>
                   (append_if_nonempty
                      (_diff item1 item2 (path ++ "[" ++ str_nat i ++ "]"))
                      ++ enumerate_zip (S i) l1' l2')%list
               | _, _ => []
               end) 0%nat l1 l2 in
          join (String "010" "") diffs
    | _, _ =>
        if scalar_ne obj1 obj2 then
          path ++ ": Value mismatch " ++ repr obj1 ++ " vs " ++ repr obj2
        else ""
    end.

(** What the loop over [all_keys] appends to [diffs] for one key, with
    [obj1[key]] and [obj2[key]] looked up in the dicts themselves *)
Definition key_diffs (d1 d2 : list (string * value)) (path key : string)
  : list string :=
  match lookup key d1 with
  | None => [path ++ "." ++ key ++ ": Missing in first object"]
  | Some v1 =>
      match lookup key d2 with
      | None => [path ++ "." ++ key ++ ": Missing in second object"]
      | Some v2 => append_if_nonempty (_diff v1 v2 (path ++ "." ++ key))
      end
  end.

(** The [diffs] of the loop over [enumerate(zip(obj1, obj2))], counting
    from [i] *)
Fixpoint list_diffs (path : string) (i : nat) (l1 l2 : list value)
  : list string :=
  match l1, l2 with
  | item1 :: l1', item2 :: l2' =>
      (append_if_nonempty
         (_diff item1 item2 (path ++ "[" ++ str_nat i ++ "]"))
         ++ list_diffs path (S i) l1' l2')%list
  | _, _ => []
  end.

(** [json_diff(obj1, obj2)], the path defaulting to [""] *)
Definition json_diff (obj1 obj2 : value) : string := _diff obj1 obj2 "".
End JsonDiff.

(** *** [assert_structure] *)

(** The classes a structure names: the classes of the values
    [json.load] produces *)
Inductive pytype : Type :=
| TNoneType
| TBool
| TInt
| TFloat
| TStr
| TList
| TDict.

(** [t.__name__] *)
Definition pytype_name (t : pytype) : string :=
  match t with
  | TNoneType => "NoneType"
  | TBool => "bool"
  | TInt => "int"
  | TFloat => "float"
  | TStr => "str"
  | TList => "list"
  | TDict => "dict"
  end.

(** [isinstance(obj, t)]; [bool] is a subclass of [int]. *)
Definition isinstance (obj : value) (t : pytype) : bool :=
  match t, obj with
  | TNoneType, VNone
  | TBool, VBool _
  | TInt, VInt _
  | TInt, VBool _
  | TFloat, VFloat _
  | TStr, VStr _
  | TList, VList _
  | TDict, VDict _ => true
  | _, _ => false
  end.

(** The [structure] argument: a class, a dict from keys to structures, a list
    of structures, or any other object *)
Unset Elimination Schemes.
Inductive structure : Type :=
| SType (t : pytype)
| SDict (entries : list (string * structure))
| SList (l : list structure)
| SOther.
Set Elimination Schemes.

Section StructureInd.
Variable P : structure -> Prop.
Hypothesis case_Type : forall t, P (SType t).
Hypothesis case_Dict :
  forall entries, Forall (fun kv => P (snd kv)) entries -> P (SDict entries).
Hypothesis case_List : forall l, Forall P l -> P (SList l).
Hypothesis case_Other : P SOther.

Fixpoint structure_ind (s : structure) : P s :=
  match s with
  | SType t => case_Type t
  | SDict entries =>
      case_Dict entries
        ((fix each (d : list (string * structure))
            : Forall (fun kv => P (snd kv)) d :=
            match d with
            | [] => Forall_nil _
            | kv :: d' =>
                Forall_cons (P := fun kv => P (snd kv)) kv
                            (structure_ind (snd kv)) (each d')
            end) entries)
  | SList l =>
      case_List l
        ((fix each (l : list structure) : Forall P l :=
            match l with
            | [] => Forall_nil P
            | x :: l' => Forall_cons x (structure_ind x) (each l')
            end) l)
  | SOther => case_Other
  end.
End StructureInd.

Section AssertStructure.
Context {World : Type}.

(** [_assert] of the fixture [assert_structure].  The recursion is on the
    structure: for a dict, every entry [key: expected_type] is first turned
    into the check the loop body makes of [obj[key]] at the path
    [f"{path}.{key}"] (the [if]/[elif] chain on [expected_type]); the loop
    over [structure.items()] then asserts [key in obj] and runs that check. *)
Fixpoint _assert (obj : value) (structure_ : structure) (path : string)
         {struct structure_} : M World unit :=
  match structure_ with
  | SDict entries =>
      match obj with
      | VDict d =>
          for_each
            (items
               (map (fun kv =>
                       (fst kv,
                        match snd kv with
                        | SType expected_type =>
                            fun item at_ =>
                              assert_ (isinstance item expected_type)
                                      (at_ ++ " should be "
                                           ++ pytype_name expected_type
                                           ++ ", got " ++ type_name item)
                        | SDict _ => fun item at_ => _assert item (snd kv) at_
                        | SList (first :: _) =>
                            fun item at_ =>
                              assert_ (is_list item) (at_ ++ " should be list") ;;;
                              match item with
                              | VList (item0 :: _) =>
                                  _assert item0 first (at_ ++ "[0]")
                              | _ => ret tt
                              end
                        | _ => fun _ _ => ret tt
                        end))
                    entries))
            (fun key_check =>
               match lookup (fst key_check) d with
               | None =>
                   raise (AssertionError
                            (path ++ "." ++ fst key_check ++ " is missing"))
               | Some item => snd key_check item (path ++ "." ++ fst key_check)
               end)
      | _ =>
          raise (AssertionError
                   (path ++ " should be dict, got " ++ type_name obj))
      end
  | SType t =>
      assert_ (isinstance obj t)
              (path ++ " should be " ++ pytype_name t ++ ", got " ++ type_name obj)
  | _ => ret tt
  end.

(** The body of the loop over [structure.items()], as the source writes it *)
Definition assert_entry (d : list (string * value)) (path : string)
           (entry : string * structure) : M World unit :=
  let (key, expected_type) := entry in
  match lookup key d with
  | None => raise (AssertionError (path ++ "." ++ key ++ " is missing"))
  | Some item =>
      match expected_type with
      | SType t =>
          assert_ (isinstance item t)
                  ((path ++ "." ++ key) ++ " should be " ++ pytype_name t
                                        ++ ", got " ++ type_name item)
      | SDict _ => _assert item expected_type (path ++ "." ++ key)
      | SList (first :: _) =>
          assert_ (is_list item) ((path ++ "." ++ key) ++ " should be list") ;;;
          match item with
          | VList (item0 :: _) =>
              _assert item0 first ((path ++ "." ++ key) ++ "[0]")
          | _ => ret tt
          end
      | _ => ret tt
      end
  end.

(** [assert_structure(obj, structure)], the path defaulting to ["root"] *)
Definition assert_structure (obj : value) (structure_ : structure)
  : M World unit :=
  _assert obj structure_ "root".
End AssertStructure.

End conftest.

(** ** testing/mappers/test_detail.py

    A pytest fixture is a parameter of the test that names it.  The fixture
    [detail_mapper] is the imported module; a test only calls its [main], so
    the parameter is that function.  A test passes when it returns, and fails
    when it raises ([AssertionError] from an [assert], [Failed] from
    [pytest.fail], or whatever the mapper raised).  pytest's rewriting of
    [assert] adds an explanation of the failed expression after the message;
    the embedding keeps the message written in the source. *)

Module test_detail.

(** The fallback of the fixture [sample_occurrence], used when
    [occ_case_1.json] does not exist. *)
Definition sample_occurrence_fallback : value :=
  VDict [("asset", VDict [("key", VStr "org/repo"); ("name", VStr "repo")]);
         ("detail", VDict [("scan", VDict [("results", VList [])])]);
         ("status", VStr "complete");
         ("type", VStr "occurrence")].

Definition empty_occurrence : value :=
  VDict [("asset", VDict [("key", VStr "org/repo"); ("name", VStr "repo")]);
         ("detail", VDict []);
         ("status", VStr "complete");
         ("type", VStr "occurrence")].

Definition malformed_occurrence : value :=
  VDict [("asset", VNone);
         ("detail", VDict [("scan", VNone)]);
         ("status", VStr "complete");
         ("type", VStr "occurrence")].

Section Tests.
Context {World : Type}.
Variable detail_mapper : value -> value -> M World value.

(** [TestOutputStructure.test_returns_summary_field] *)
Definition test_returns_summary_field (sample_occurrence : value)
  : M World unit :=
  result <- detail_mapper sample_occurrence (VDict []) ;;
  has <- py_in "summary" result ;;
  assert_ has "Output must contain 'summary' field".

(** [TestEdgeCases.test_handles_empty_occurrence] *)
Definition test_handles_empty_occurrence (empty_occurrence : value)
  : M World unit :=
  try_except
    (result <- detail_mapper empty_occurrence (VDict []) ;;
     assert_ (is_dict result) "Should return dict even with empty occurrence")
    (fun e => raise (Failed ("Failed to handle empty occurrence: " ++ str_exn e))).

(** [TestEdgeCases.test_handles_malformed_occurrence] *)
Definition test_handles_malformed_occurrence (malformed_occurrence : value)
  : M World unit :=
  try_except
    (result <- detail_mapper malformed_occurrence (VDict []) ;;
     assert_ (is_dict result)
             "Should return dict even with malformed occurrence")
    (fun e =>
       raise (Failed ("Failed to handle malformed occurrence: " ++ str_exn e))).

(** [TestEdgeCases.test_handles_missing_detail_field] *)
Definition test_handles_missing_detail_field : M World unit :=
  let occurrence := VDict [("asset", VDict [("key", VStr "test")])] in
  try_except
    (result <- detail_mapper occurrence (VDict []) ;;
     assert_ (is_dict result) "")
    (fun e =>
       raise (Failed ("Failed to handle missing 'detail' field: " ++ str_exn e))).

(** [TestEdgeCases.test_handles_none_occurrence] *)
Definition test_handles_none_occurrence : M World unit :=
  try_except_type_attr
    (result <- detail_mapper VNone (VDict []) ;;
     (* Should either return empty structure or raise informative error *)
     assert_ (match result with VNone => false | _ => true end) "")
    (* It's ok to fail with type error on None, but don't crash *)
    (ret tt).

(** The body of the loop of
    [TestWithRealData.test_all_payloads_process_successfully] *)
Definition process_payload (entry : string * value) : M World unit :=
  let (filename, payload) := entry in
  try_except
    (result <- detail_mapper payload (VDict []) ;;
     assert_ (is_dict result) (filename ++ ": Should return dict") ;;;
     has <- py_in "summary" result ;;
     assert_ has (filename ++ ": Should have summary"))
    (fun e => raise (Failed (filename ++ ": Failed to process: " ++ str_exn e))).

(** [TestWithRealData.test_all_payloads_process_successfully] *)
Definition test_all_payloads_process_successfully
           (all_test_payloads : list (string * value)) : M World unit :=
  for_each all_test_payloads process_payload.

(** [TestBasicFunctionality.test_main_returns_dict] *)
Definition test_main_returns_dict (sample_occurrence : value) : M World unit :=
  result <- detail_mapper sample_occurrence (VDict []) ;;
  assert_ (is_dict result) "main() must return a dictionary".

(** [TestBasicFunctionality.test_main_does_not_raise_exception] *)
Definition test_main_does_not_raise_exception (sample_occurrence : value)
  : M World unit :=
  try_except
    (detail_mapper sample_occurrence (VDict []) ;;; ret tt)
    (fun e => raise (Failed ("main() raised unexpected exception: " ++ str_exn e))).

(** [TestOutputStructure.test_summary_is_dict] *)
Definition test_summary_is_dict (sample_occurrence : value) : M World unit :=
  result <- detail_mapper sample_occurrence (VDict []) ;;
  summary <- get result "summary" VNone ;;
  assert_ (is_dict summary) "'summary' must be a dictionary".

(** [TestOutputStructure.test_returns_expected_top_level_fields] *)
Definition test_returns_expected_top_level_fields (sample_occurrence : value)
  : M World unit :=
  result <- detail_mapper sample_occurrence (VDict []) ;;
  (* Adjust these based on your control's structure *)
  let expected_fields := ["summary"] in
  for_each expected_fields
           (fun field =>
              has <- py_in field result ;;
              assert_ has ("Output must contain '" ++ field ++ "' field")).

(** [TestOutputStructure.test_summary_has_counts] *)
Definition test_summary_has_counts (sample_occurrence : value) : M World unit :=
  result <- detail_mapper sample_occurrence (VDict []) ;;
  summary <- get result "summary" (VDict []) ;;
  (* Generic check: summary should not be empty *)
  positive <- len_positive summary ;;
  assert_ positive "Summary should not be empty".

(** [TestEdgeCases.test_handles_empty_context] *)
Definition test_handles_empty_context (sample_occurrence : value)
  : M World unit :=
  result <- detail_mapper sample_occurrence (VDict []) ;;
  assert_ (is_dict result) "".

(** [TestEdgeCases.test_handles_none_context] *)
Definition test_handles_none_context (sample_occurrence : value)
  : M World unit :=
  result <- detail_mapper sample_occurrence VNone ;;
  assert_ (is_dict result) "".
End Tests.

End test_detail.

(** ** testing/mappers/test_display.py *)

Module test_display.

Definition sample_occurrence : value :=
  VDict [("asset", VDict [("key", VStr "org/repo"); ("name", VStr "repo")]);
         ("detail", VDict [("summary", VDict [("critical", VInt 2);
                                              ("high", VInt 5);
                                              ("medium", VInt 10);
                                              ("low", VInt 20);
                                              ("total", VInt 37)]);
                           ("vulnerabilities", VList [])]);
         ("status", VStr "complete");
         ("type", VStr "occurrence")].

Definition sample_attestation : value :=
  VDict [("policy",
          VDict [("data",
                  VDict [("required", VBool true);
                         ("vulnerabilities",
                          VDict [("critical", VDict [("maximum", VInt 0);
                                                     ("exceptions", VList [])]);
                                 ("high", VDict [("maximum", VInt 5);
                                                 ("exceptions", VList [])])])])]);
         ("result", VStr "fail")].

Definition empty_occurrence : value := VDict [("detail", VDict [])].

(** The two occurrences of [TestConsistency.test_description_does_not_change] *)
Definition occ1 : value :=
  VDict [("detail", VDict [("summary", VDict [("total", VInt 10)])])].

Definition occ2 : value :=
  VDict [("detail", VDict [("summary", VDict [("total", VInt 20)])])].

Section Tests.
Context {World : Type}.
Variable detail_mapper : value -> value -> M World value.
Variable display_mapper : value -> value -> value -> M World value.

(** The body of the loop of
    [TestIntegrationWithDetail.test_display_works_with_detail_output] *)
Definition integrate_payload (sample_attestation payload : value)
  : M World unit :=
  (* Run detail mapper first *)
  mapped_detail <- detail_mapper payload (VDict []) ;;
  (* Create occurrence with mapped detail *)
  occurrence_with_detail <- splat_with payload "detail" mapped_detail ;;
  (* Run display mapper *)
  try_except
    (result <- display_mapper occurrence_with_detail sample_attestation
                              (VDict []) ;;
     assert_ (is_dict result) "" ;;;
     has_description <- py_in "description" result ;;
     assert_ has_description "" ;;;
     has_tag <- py_in "tag" result ;;
     assert_ has_tag "")
    (fun e =>
       raise (Failed ("Display mapper failed with detail output: "
                        ++ str_exn e))).

(** [TestIntegrationWithDetail.test_display_works_with_detail_output]; the
    fixture [test_payloads] holds the payloads without their file names. *)
Definition test_display_works_with_detail_output
           (test_payloads : list value) (sample_attestation : value)
  : M World unit :=
  for_each test_payloads (integrate_payload sample_attestation).

(** [TestBasicFunctionality.test_main_returns_dict] *)
Definition test_main_returns_dict (sample_occurrence sample_attestation : value)
  : M World unit :=
  result <- display_mapper sample_occurrence sample_attestation (VDict []) ;;
  assert_ (is_dict result) "main() must return a dictionary".

(** [TestOutputStructure.test_returns_description_field] *)
Definition test_returns_description_field
           (sample_occurrence sample_attestation : value) : M World unit :=
  result <- display_mapper sample_occurrence sample_attestation (VDict []) ;;
  has <- py_in "description" result ;;
  assert_ has "Output must contain 'description' field".

(** [TestOutputStructure.test_returns_tag_field] *)
Definition test_returns_tag_field
           (sample_occurrence sample_attestation : value) : M World unit :=
  result <- display_mapper sample_occurrence sample_attestation (VDict []) ;;
  has <- py_in "tag" result ;;
  assert_ has "Output must contain 'tag' field".

(** [TestOutputStructure.test_has_required_fields] *)
Definition test_has_required_fields
           (sample_occurrence sample_attestation : value) : M World unit :=
  result <- display_mapper sample_occurrence sample_attestation (VDict []) ;;
  let required_fields := ["description"; "tag"] in
  for_each required_fields
           (fun field =>
              has <- py_in field result ;;
              assert_ has ("Output must contain '" ++ field ++ "' field")).

(** The column types [TestViolationsStructure] accepts *)
Definition valid_types : list string := ["string"; "number"; "email"; "url"].

(** The body of the loop over [violations['columns'].items()] *)
Definition check_column {R : Repr} (column : string * value) : M World unit :=
  let (col_key, col_def) := column in
  match col_def with
  | VDict cd =>
      assert_ (has_key "name" cd) ("Column '" ++ col_key ++ "' must have 'name'") ;;;
      match lookup "type" cd with
      | None =>
          raise (AssertionError ("Column '" ++ col_key ++ "' must have 'type'"))
      | Some type_ =>
          (* Type should be one of the valid types *)
          assert_ (match type_ with
                   | VStr t => existsb (String.eqb t) valid_types
                   | _ => false
                   end)
                  ("Column '" ++ col_key
                     ++ "' type must be one of ['string', 'number', 'email', 'url'], got '"
                     ++ str type_ ++ "'")
      end
  | _ =>
      raise (AssertionError ("Column '" ++ col_key ++ "' must be a dictionary"))
  end.

(** [TestViolationsStructure.test_violations_structure_if_present] *)
Definition test_violations_structure_if_present {R : Repr}
           (sample_occurrence sample_attestation : value) : M World unit :=
  result <- display_mapper sample_occurrence sample_attestation (VDict []) ;;
  if_in_then_item "violations" result
    (fun violations =>
       match violations with
       | VDict vd =>
           match lookup "columns" vd with
           | None => raise (AssertionError "'violations' must have 'columns'")
           | Some (VDict columns) =>
               (* Each column definition should have 'name' and 'type' *)
               for_each (items columns) check_column
           | Some _ => raise (AssertionError "'columns' must be a dictionary")
           end
       | _ => raise (AssertionError "'violations' must be a dictionary")
       end).

(** [TestEdgeCases.test_handles_empty_occurrence] *)
Definition test_handles_empty_occurrence
           (empty_occurrence sample_attestation : value) : M World unit :=
  try_except
    (result <- display_mapper empty_occurrence sample_attestation (VDict []) ;;
     assert_ (is_dict result) "" ;;;
     has_description <- py_in "description" result ;;
     assert_ has_description "" ;;;
     has_tag <- py_in "tag" result ;;
     assert_ has_tag "")
    (fun e => raise (Failed ("Failed to handle empty occurrence: " ++ str_exn e))).

(** [TestEdgeCases.test_handles_empty_attestation] *)
Definition test_handles_empty_attestation (sample_occurrence : value)
  : M World unit :=
  let empty_attestation := VDict [] in
  try_except
    (result <- display_mapper sample_occurrence empty_attestation (VDict []) ;;
     assert_ (is_dict result) "" ;;;
     has_description <- py_in "description" result ;;
     assert_ has_description "" ;;;
     has_tag <- py_in "tag" result ;;
     assert_ has_tag "")
    (fun e => raise (Failed ("Failed to handle empty attestation: " ++ str_exn e))).

(** [TestEdgeCases.test_handles_missing_detail] *)
Definition test_handles_missing_detail (sample_attestation : value)
  : M World unit :=
  let occurrence_no_detail := VDict [("asset", VDict [("key", VStr "test")])] in
  try_except
    (result <- display_mapper occurrence_no_detail sample_attestation
                              (VDict []) ;;
     assert_ (is_dict result) "")
    (fun e => raise (Failed ("Failed to handle missing detail: " ++ str_exn e))).

(** [TestEdgeCases.test_handles_missing_summary] *)
Definition test_handles_missing_summary (sample_attestation : value)
  : M World unit :=
  let occurrence_no_summary := VDict [("detail", VDict [])] in
  try_except
    (result <- display_mapper occurrence_no_summary sample_attestation
                              (VDict []) ;;
     assert_ (is_dict result) "")
    (fun e => raise (Failed ("Failed to handle missing summary: " ++ str_exn e))).

(** [TestEdgeCases.test_handles_none_inputs] *)
Definition test_handles_none_inputs : M World unit :=
  try_except_type_attr
    (result <- display_mapper VNone VNone VNone ;;
     assert_ (match result with VNone => false | _ => true end) "")
    (* It's ok to fail with type error on None, but should be graceful *)
    (ret tt).

(** [TestEdgeCases.test_handles_missing_context] *)
Definition test_handles_missing_context
           (sample_occurrence sample_attestation : value) : M World unit :=
  result1 <- display_mapper sample_occurrence sample_attestation (VDict []) ;;
  assert_ (is_dict result1) "" ;;;
  result2 <- display_mapper sample_occurrence sample_attestation VNone ;;
  assert_ (is_dict result2) "".
End Tests.

End test_display.

(** ** Notions the statements below use *)

Module Spec.

(** The description the quickstart display mapper returns *)
Definition description : string :=
  "A simple boolean check - the most minimal control possible".

(** [o] is a mapping whose [detail] entry is the mapping [e]. *)
Definition detail_is (o : value) (e : list (string * value)) : Prop :=
  match o with
  | VDict d => lookup "detail" d = Some (VDict e)
  | _ => False
  end.

(** [o] is a mapping whose [detail] entry, when there is one, is the mapping
    [e]; without the entry [e] is empty. *)
Definition detail_or_default (o : value) (e : list (string * value)) : Prop :=
  match o with
  | VDict d =>
      match lookup "detail" d with
      | Some v => v = VDict e
      | None => e = []
      end
  | _ => False
  end.

(** [e.get(key, False)] as a value *)
Definition get_or_False (key : string) (e : list (string * value)) : value :=
  match lookup key e with
  | Some v => v
  | None => VBool false
  end.

(** Two values of the same shape that differ at most where both hold a
    number *)
Fixpoint same_but_numbers (v1 v2 : value) {struct v1} : bool :=
  match v1, v2 with
  | VNone, VNone => true
  | VBool a, VBool b => Bool.eqb a b
  | (VInt _ | VFloat _), (VInt _ | VFloat _) => true
  | VStr a, VStr b => String.eqb a b
  | VList l1, VList l2 =>
      (fix all2 (l1 l2 : list value) : bool :=
         match l1, l2 with
         | [], [] => true
         | x :: l1', y :: l2' => same_but_numbers x y && all2 l1' l2'
         | _, _ => false
         end) l1 l2
  | VDict d1, VDict d2 =>
      (fix all2 (d1 d2 : list (string * value)) : bool :=
         match d1, d2 with
         | [], [] => true
         | (k1, x) :: d1', (k2, y) :: d2' =>
             String.eqb k1 k2 && same_but_numbers x y && all2 d1' d2'
         | _, _ => false
         end) d1 d2
  | _, _ => false
  end.

(** Two occurrences that differ only in numeric detail fields: both are
    mappings, their [detail] entries are mappings of the same shape up to
    numbers, and every other entry is the same. *)
Definition differ_only_in_numeric_detail_fields (o1 o2 : value) : Prop :=
  match o1, o2 with
  | VDict d1, VDict d2 =>
      (forall k, k <> "detail" -> lookup k d1 = lookup k d2) /\
      match lookup "detail" d1, lookup "detail" d2 with
      | Some (VDict e1), Some (VDict e2) =>
          same_but_numbers (VDict e1) (VDict e2) = true
      | _, _ => False
      end
  | _, _ => False
  end.

(** Structural equality of two JSON values: the same type at every position,
    the same key sets in mappings, the same lengths and element-wise equal
    sequences, scalars equal under Python's [==]. *)
#[local] Unset Elimination Schemes.
Inductive struct_eq : value -> value -> Prop :=
| se_none : struct_eq VNone VNone
| se_bool b : struct_eq (VBool b) (VBool b)
| se_int z : struct_eq (VInt z) (VInt z)
| se_float f g : PrimFloat.eqb f g = true -> struct_eq (VFloat f) (VFloat g)
| se_str s : struct_eq (VStr s) (VStr s)
| se_list l1 l2 : Forall2 struct_eq l1 l2 -> struct_eq (VList l1) (VList l2)
| se_dict d1 d2 :
    (forall k, has_key k d1 = has_key k d2) ->
    (forall k v1 v2,
        lookup k d1 = Some v1 -> lookup k d2 = Some v2 -> struct_eq v1 v2) ->
    struct_eq (VDict d1) (VDict d2).
#[local] Set Elimination Schemes.

(** No float of the value is a NaN. *)
Fixpoint nan_free (v : value) : bool :=
  match v with
  | VFloat f => negb (PrimFloat.is_nan f)
  | VList l => forallb nan_free l
  | VDict d => forallb (fun kv => nan_free (snd kv)) d
  | _ => true
  end.

(** A path into a JSON value, and the way [_diff] writes it *)
Inductive step : Type :=
| Key (k : string)
| Index (i : nat).

Definition render_step (s : step) : string :=
  match s with
  | Key k => "." ++ k
  | Index i => "[" ++ str_nat i ++ "]"
  end.

Fixpoint render (p : list step) : string :=
  match p with
  | [] => ""
  | s :: p' => render_step s ++ render p'
  end.

(** The two values differ at the path [p]: both reach the position and hold
    there values of different types, sequences of different lengths or
    scalars that are unequal under Python's [!=]; or the last step is a key
    that one of the two mappings lacks. *)
Fixpoint differ_at (p : list step) (x y : value) : bool :=
  match p with
  | [] =>
      negb (same_type x y)
      || match x, y with
         | VDict _, VDict _ => false
         | VList l1, VList l2 => negb (Nat.eqb (List.length l1) (List.length l2))
         | _, _ => scalar_ne x y
         end
  | Key k :: p' =>
      match x, y with
      | VDict d1, VDict d2 =>
          match lookup k d1, lookup k d2 with
          | Some v1, Some v2 => differ_at p' v1 v2
          | None, None => false
          | _, _ => match p' with [] => true | _ => false end
          end
      | _, _ => false
      end
  | Index i :: p' =>
      match x, y with
      | VList l1, VList l2 =>
          match nth_error l1 i, nth_error l2 i with
          | Some v1, Some v2 => differ_at p' v1 v2
          | _, _ => false
          end
      | _, _ => false
      end
  end.

(** Two invocations in a row, as in
    [result1 = main(...); result2 = main(...)], keeping both results *)
Definition twice {World A} (m : M World A) : M World (A * A) :=
  r1 <- m ;; r2 <- m ;; ret (r1, r2).

(** *** Notions for the properties beyond the claims *)

(** The object that has no [.get] when a quickstart mapper is called on [o]:
    [o] itself when it is not a mapping, its [detail] entry when that is not
    a mapping; none otherwise. *)
Definition without_get (o : value) : option value :=
  match o with
  | VDict d =>
      match lookup "detail" d with
      | Some (VDict _) | None => None
      | Some v => Some v
      end
  | _ => Some o
  end.

(** What a structure asks of an object, read declaratively: a class asks for
    an instance; a dict asks for a dict that has every key of the structure,
    the value under a key meeting what the entry asks; a list or another
    object asks nothing.  An entry that is a class or a dict asks of the
    value what that structure asks; an entry that is a non-empty list asks
    for a list whose first item, when there is one, meets the first element
    of the entry; any other entry asks nothing. *)
#[local] Unset Elimination Schemes.
Inductive conforms : value -> conftest.structure -> Prop :=
| conforms_type obj t :
    conftest.isinstance obj t = true -> conforms obj (conftest.SType t)
| conforms_dict d entries :
    (forall key expected,
        lookup key entries = Some expected ->
        exists item, lookup key d = Some item /\ entry_conforms item expected) ->
    conforms (VDict d) (conftest.SDict entries)
| conforms_list obj l : conforms obj (conftest.SList l)
| conforms_other obj : conforms obj conftest.SOther
with entry_conforms : value -> conftest.structure -> Prop :=
| entry_type item t :
    conftest.isinstance item t = true -> entry_conforms item (conftest.SType t)
| entry_dict item entries :
    conforms item (conftest.SDict entries) ->
    entry_conforms item (conftest.SDict entries)
| entry_list_empty first rest :
    entry_conforms (VList []) (conftest.SList (first :: rest))
| entry_list_first item0 items first rest :
    conforms item0 first ->
    entry_conforms (VList (item0 :: items)) (conftest.SList (first :: rest))
| entry_list_nil item : entry_conforms item (conftest.SList [])
| entry_other item : entry_conforms item conftest.SOther.
#[local] Set Elimination Schemes.

(** The value with every list cut down to its first item *)
Fixpoint first_items (v : value) : value :=
  match v with
  | VList [] => VList []
  | VList (x :: _) => VList [first_items x]
  | VDict d => VDict (map (fun kv => (fst kv, first_items (snd kv))) d)
  | _ => v
  end.

(** The column-definition schema: a column is a mapping with a [name] and a
    [type] that is one of the four strings; [violations] is a mapping whose
    [columns] is a mapping of such columns. *)
Definition column_ok (c : value) : Prop :=
  exists cd t,
    c = VDict cd /\
    has_key "name" cd = true /\
    lookup "type" cd = Some (VStr t) /\
    In t test_display.valid_types.

Definition violations_ok (v : value) : Prop :=
  exists vd columns,
    v = VDict vd /\
    lookup "columns" vd = Some (VDict columns) /\
    forall k c, lookup k columns = Some c -> column_ok c.

(** A difference [_diff] reports at the path [p]: as [differ_at], except that
    below an index the two lists have the same length (lists of different
    lengths are reported as such, and their items are not compared). *)
Fixpoint reported_at (p : list step) (x y : value) : bool :=
  match p with
  | [] => differ_at [] x y
  | Key k :: p' =>
      match x, y with
      | VDict d1, VDict d2 =>
          match lookup k d1, lookup k d2 with
          | Some v1, Some v2 => reported_at p' v1 v2
          | None, None => false
          | _, _ => match p' with [] => true | _ => false end
          end
      | _, _ => false
      end
  | Index i :: p' =>
      match x, y with
      | VList l1, VList l2 =>
          Nat.eqb (List.length l1) (List.length l2)
          && match nth_error l1 i, nth_error l2 i with
             | Some v1, Some v2 => reported_at p' v1 v2
             | _, _ => false
             end
      | _, _ => false
      end
  end.

(** A printer and a set order to run the definitions with: strings quoted
    with single quotes, a NaN printed as [nan] and any other float as a
    fixed token, a set iterated in the order of first insertion. *)
Definition sample_Repr : Repr :=
  {| repr_float := fun f => if PrimFloat.is_nan f then "nan" else "<float>";
     repr_str := fun s => "'" ++ s ++ "'" |}.

Definition sample_set_iter (l : list string) : list string :=
  nodup string_dec l.

Definition sample_SetIter : conftest.SetIter :=
  {| conftest.set_iter := sample_set_iter;
     conftest.set_iter_In := fun l k => nodup_In string_dec l k |}.

End Spec.

Import Spec.

(** * Properties *)

(** ** Running the monad *)

Lemma bind_Ok {World A B} (m : M World A) (k : A -> M World B) w a w' :
  m w = (Ok a, w') -> bind m k w = k a w'.
Proof. intros H. unfold bind. rewrite H. reflexivity. Qed.

Lemma bind_Raise {World A B} (m : M World A) (k : A -> M World B) w e w' :
  m w = (Raise e, w') -> bind m k w = (Raise e, w').
Proof. intros H. unfold bind. rewrite H. reflexivity. Qed.

(** A loop whose body raises at some element stops there: what follows the
    element is not run. *)
Lemma for_each_stops {World A} (body : A -> M World unit) pre x post w w1 w2 e :
  for_each pre body w = (Ok tt, w1) ->
  body x w1 = (Raise e, w2) ->
  for_each (pre ++ x :: post) body w = (Raise e, w2).
Proof.
  revert w. induction pre as [|y pre IH]; intros w Hpre Hx; simpl in *.
  - inversion Hpre; subst. apply bind_Raise. exact Hx.
  - unfold bind in *. destruct (body y w) as [[[]|e'] w'] eqn:Hy.
    + apply IH; assumption.
    + discriminate.
Qed.

(** ** The quickstart mappers on a mapping *)

Lemma get_dict {World} d key default (w : World) :
  get (VDict d) key default w
  = (Ok (match lookup key d with Some v => v | None => default end), w).
Proof. reflexivity. Qed.

Lemma detail_main_on_detail {World} o c e (w : World) :
  detail_or_default o e ->
  detail.main o c w
  = (Ok (VDict [("passed", get_or_False "check_passed" e)]), w).
Proof.
  destruct o; simpl; try contradiction. intros H.
  unfold detail.main, bind, get_or_False. rewrite get_dict.
  destruct (lookup "detail" d) as [v|]; subst; reflexivity.
Qed.

Lemma display_main_on_detail {World} {R : Repr} o a c e (w : World) :
  detail_or_default o e ->
  display.main o a c w
  = (Ok (VDict [("description", VStr description);
                ("tag", VStr ("Value: " ++ str (get_or_False "passed" e)))]), w).
Proof.
  destruct o; simpl; try contradiction. intros H.
  unfold display.main, bind, get_or_False. rewrite get_dict.
  destruct (lookup "detail" d) as [v|]; subst; reflexivity.
Qed.

Lemma detail_is_or_default o e : detail_is o e -> detail_or_default o e.
Proof.
  destruct o; simpl; try contradiction. intros ->. reflexivity.
Qed.

(** Whenever the detail mapper returns, the occurrence is a mapping whose
    [detail] entry is absent or a mapping. *)
Lemma detail_main_Ok_inv {World} o c (w w' : World) r :
  detail.main o c w = (Ok r, w') -> exists e, detail_or_default o e.
Proof.
  destruct o; try discriminate. unfold detail.main, bind. rewrite get_dict.
  simpl. destruct (lookup "detail" d) as [v|].
  - destruct v; try discriminate. intros _. eexists. reflexivity.
  - intros _. eexists. reflexivity.
Qed.

(** ** The detail mapper *)

(** C1, as stated, fails: an occurrence mapping whose [detail] entry is not a
    mapping (here [{"detail": None}]) does not yield [{passed: False}]; the
    second [.get] raises [AttributeError]. *)
Lemma detail_main_detail_None_raises :
  detail.main (World := unit) (VDict [("detail", VNone)]) (VDict []) tt
  = (Raise (AttributeError "'NoneType' object has no attribute 'get'"), tt).
Proof. reflexivity. Qed.

(** C1 (amended): for every occurrence mapping [o] whose [detail] entry, when
    present, is a mapping [e] ([e] empty when the entry is absent) and every
    context [c], [detail.main(o, c)] returns exactly the one-key mapping
    [{passed: v}], and leaves the interpreter state alone; [v] is
    [e["check_passed"]] when [e] has the key and [False] otherwise. *)
Theorem detail_main_passed {World} (o c : value) e (w : World) :
  detail_or_default o e ->
  exists v,
    detail.main o c w = (Ok (VDict [("passed", v)]), w) /\
    (forall x, lookup "check_passed" e = Some x -> v = x) /\
    (lookup "check_passed" e = None -> v = VBool false).
Proof.
  intros H. exists (get_or_False "check_passed" e).
  split; [apply detail_main_on_detail; exact H|].
  unfold get_or_False. split.
  - intros x ->. reflexivity.
  - intros ->. reflexivity.
Qed.

(** Scenarios 1 and 4: [detail = {check_passed: True}] gives [{passed: True}],
    and the empty occurrence of the harness gives [{passed: False}]. *)
Lemma detail_main_passed_scenarios :
  (exists v,
      detail.main (World := unit)
                  (VDict [("detail", VDict [("check_passed", VBool true)])])
                  (VDict []) tt
      = (Ok (VDict [("passed", v)]), tt) /\ v = VBool true) /\
  (exists v,
      detail.main (World := unit) conftest.empty_occurrence (VDict []) tt
      = (Ok (VDict [("passed", v)]), tt) /\ v = VBool false).
Proof.
  split.
  - destruct (detail_main_passed
                (VDict [("detail", VDict [("check_passed", VBool true)])])
                (VDict []) [("check_passed", VBool true)] tt eq_refl)
      as (v & Hrun & Hsome & _).
    exists v. split; [exact Hrun | apply Hsome; reflexivity].
  - destruct (detail_main_passed conftest.empty_occurrence (VDict []) [] tt
                                 eq_refl)
      as (v & Hrun & _ & Hnone).
    exists v. split; [exact Hrun | apply Hnone; reflexivity].
Defined.

(** C3, as stated, fails: a wholly-null occurrence is not the only one on
    which the detail mapper fails.  It raises as well on the non-null
    occurrence [{asset: None, detail: None}], whose [detail] has no [.get],
    and on an occurrence that is not a mapping, such as [[]]. *)
Lemma detail_main_fails_on_non_null_occurrences :
  detail.main (World := unit)
              (VDict [("asset", VNone); ("detail", VNone)]) (VDict []) tt
  = (Raise (AttributeError "'NoneType' object has no attribute 'get'"), tt) /\
  detail.main (World := unit) (VList []) (VDict []) tt
  = (Raise (AttributeError "'list' object has no attribute 'get'"), tt).
Proof. split; reflexivity. Qed.

(** C3 (amended): with an empty context the detail mapper returns a mapping,
    raising nothing and changing nothing, on every occurrence mapping whose
    [detail] is absent or a mapping, whatever its fields hold; so it does on
    every occurrence mapping with an empty [detail], without a [detail] key,
    or with [detail = {scan: None}] (whatever [asset] is), where the result
    is [{passed: False}], and the three edge-case tests of the harness pass.
    On a [None] occurrence it raises [AttributeError] at the first [.get],
    the state untouched, which the harness accepts.  The mapper fails exactly
    on the occurrences that are not a mapping (the [None] occurrence among
    them) or whose [detail] entry is present and not a mapping: what it
    raises is then the [AttributeError] of the first [.get] called on the
    object that has none, and the state is untouched. *)
Theorem detail_main_edge_cases {World} (w : World) :
  (forall d e,
      lookup "detail" d = None \/ lookup "detail" d = Some (VDict e) ->
      exists v,
        detail.main (VDict d) (VDict []) w = (Ok (VDict [("passed", v)]), w)) /\
  (forall d,
      lookup "detail" d = Some (VDict []) \/
      lookup "detail" d = None \/
      lookup "detail" d = Some (VDict [("scan", VNone)]) ->
      detail.main (VDict d) (VDict []) w
      = (Ok (VDict [("passed", VBool false)]), w)) /\
  test_detail.test_handles_empty_occurrence
    detail.main test_detail.empty_occurrence w = (Ok tt, w) /\
  test_detail.test_handles_missing_detail_field detail.main w = (Ok tt, w) /\
  test_detail.test_handles_malformed_occurrence
    detail.main test_detail.malformed_occurrence w = (Ok tt, w) /\
  get VNone "detail" (VDict []) w
  = (Raise (AttributeError "'NoneType' object has no attribute 'get'"), w) /\
  detail.main VNone (VDict []) w
  = (Raise (AttributeError "'NoneType' object has no attribute 'get'"), w) /\
  test_detail.test_handles_none_occurrence detail.main w = (Ok tt, w) /\
  (forall o c,
      match without_get o with
      | None =>
          exists v, detail.main o c w = (Ok (VDict [("passed", v)]), w)
      | Some v =>
          detail.main o c w
          = (Raise (AttributeError
                      ("'" ++ type_name v ++ "' object has no attribute 'get'")),
             w) /\
          get v "detail" (VDict []) w
          = (Raise (AttributeError
                      ("'" ++ type_name v ++ "' object has no attribute 'get'")),
             w)
      end) /\
  (forall o c e w',
      detail.main o c w = (Raise e, w') ->
      w' = w /\
      exists v,
        without_get o = Some v /\
        e = AttributeError
              ("'" ++ type_name v ++ "' object has no attribute 'get'")).
Proof.
  assert (Hsplit : forall o c,
             match without_get o with
             | None =>
                 exists v, detail.main o c w = (Ok (VDict [("passed", v)]), w)
             | Some v =>
                 detail.main o c w
                 = (Raise (AttributeError
                             ("'" ++ type_name v
                                  ++ "' object has no attribute 'get'")), w) /\
                 get v "detail" (VDict []) w
                 = (Raise (AttributeError
                             ("'" ++ type_name v
                                  ++ "' object has no attribute 'get'")), w)
             end).
  { intros o c. destruct o; try (split; reflexivity).
    unfold without_get, detail.main, bind. rewrite get_dict.
    destruct (lookup "detail" d) as [[]|];
      try (split; reflexivity); eexists; reflexivity. }
  split; [|split; [|do 6 (split; [reflexivity|]); split; [exact Hsplit|]]].
  - intros d e H. unfold detail.main, bind. rewrite get_dict.
    destruct H as [-> | ->]; eexists; reflexivity.
  - intros d H. unfold detail.main, bind. rewrite get_dict.
    destruct H as [-> | [-> | ->]]; reflexivity.
  - intros o c e w' Hrun. specialize (Hsplit o c).
    destruct (without_get o) as [v|].
    + destruct Hsplit as [Hr _]. rewrite Hr in Hrun. inversion Hrun; subst.
      split; [reflexivity|]. exists v. split; reflexivity.
    + destruct Hsplit as [v Hr]. rewrite Hr in Hrun. discriminate.
Qed.

Lemma detail_main_edge_cases_witness :
  detail.main (World := unit) test_detail.malformed_occurrence (VDict []) tt
  = (Ok (VDict [("passed", VBool false)]), tt) /\
  exists v,
    without_get (VDict [("asset", VNone); ("detail", VInt 3)]) = Some v /\
    AttributeError "'int' object has no attribute 'get'"
    = AttributeError ("'" ++ type_name v ++ "' object has no attribute 'get'").
Proof.
  split.
  - apply (proj1 (proj2 (detail_main_edge_cases tt))). right. right. reflexivity.
  - destruct (detail_main_edge_cases tt)
      as (_ & _ & _ & _ & _ & _ & _ & _ & _ & Honly).
    apply (Honly (VDict [("asset", VNone); ("detail", VInt 3)]) (VDict [])
                 (AttributeError "'int' object has no attribute 'get'") tt).
    reflexivity.
Defined.

(** C8: whenever the quickstart detail mapper returns, its result is a
    mapping whose only key is [passed]; ['summary' in result] is false, and
    the structural test of the harness, which asserts it, fails.  On no
    sample occurrence at all does that test pass. *)
Theorem detail_main_has_no_summary {World} (o c : value) (w : World) :
  (forall r w',
      detail.main o c w = (Ok r, w') ->
      (exists v, r = VDict [("passed", v)]) /\
      (exists d, r = VDict d /\ keys d = ["passed"]) /\
      py_in "summary" r w' = (Ok false, w') /\
      test_detail.test_returns_summary_field detail.main o w
      = (Raise (AssertionError "Output must contain 'summary' field"), w)) /\
  (exists e, test_detail.test_returns_summary_field detail.main o w
             = (Raise e, w)).
Proof.
  split.
  - intros r w' Hrun.
    destruct (detail_main_Ok_inv _ _ _ _ _ Hrun) as [e He].
    pose proof (detail_main_on_detail o c e w He) as Hc.
    rewrite Hc in Hrun. inversion Hrun; subst.
    split; [eexists; reflexivity|].
    split; [eexists; split; reflexivity|].
    split; [reflexivity|].
    unfold test_detail.test_returns_summary_field.
    rewrite (bind_Ok _ _ _ _ _ (detail_main_on_detail o (VDict []) e w' He)).
    reflexivity.
  - unfold test_detail.test_returns_summary_field.
    destruct (detail.main o (VDict []) w) as [[r|e] w1] eqn:Hrun.
    + destruct (detail_main_Ok_inv _ _ _ _ _ Hrun) as [e He].
      rewrite (bind_Ok _ _ _ _ _ (detail_main_on_detail o (VDict []) e w He)).
      eexists. reflexivity.
    + assert (w1 = w) as ->.
      { revert Hrun. destruct o; try (intros Hrun; inversion Hrun; reflexivity).
        unfold detail.main, bind. rewrite get_dict.
        destruct (lookup "detail" d) as [[]|]; simpl;
          intros Hrun; inversion Hrun; reflexivity. }
      exists e. apply bind_Raise. exact Hrun.
Qed.

Lemma detail_main_has_no_summary_witness :
  py_in (World := unit) "summary" (VDict [("passed", VBool false)]) tt
  = (Ok false, tt) /\
  test_detail.test_returns_summary_field
    (World := unit) detail.main test_detail.sample_occurrence_fallback tt
  = (Raise (AssertionError "Output must contain 'summary' field"), tt).
Proof.
  destruct (proj1 (detail_main_has_no_summary
                     test_detail.sample_occurrence_fallback (VDict []) tt)
                  (VDict [("passed", VBool false)]) tt eq_refl)
    as (_ & _ & Hin & Htest).
  split; [exact Hin | exact Htest].
Defined.

(** ** The display mapper *)

Lemma append_inj_l (p a b : string) : p ++ a = p ++ b -> a = b.
Proof.
  induction p as [|ch p IH]; simpl; intros H; [exact H|].
  inversion H. auto.
Qed.

(** C2: for every occurrence [o] whose [detail] is a mapping [e], every
    attestation and every context, [display.main] returns a mapping with the
    keys [description] and [tag], both non-empty strings; the description is
    the constant text, and the tag is ["Value: True"] when [e["passed"]] is
    [True] and ["Value: False"] when it is [False] or absent. *)
Theorem display_main_description_tag {World} {R : Repr}
        (o a c : value) e (w : World) :
  detail_is o e ->
  exists tag,
    display.main o a c w
    = (Ok (VDict [("description",
                   VStr "A simple boolean check - the most minimal control possible");
                  ("tag", VStr tag)]), w) /\
    "A simple boolean check - the most minimal control possible" <> "" /\
    tag <> "" /\
    (lookup "passed" e = Some (VBool true) -> tag = "Value: True") /\
    (lookup "passed" e = Some (VBool false) \/ lookup "passed" e = None ->
     tag = "Value: False").
Proof.
  intros H. exists ("Value: " ++ str (get_or_False "passed" e)).
  split; [apply display_main_on_detail, detail_is_or_default, H|].
  split; [discriminate|]. split; [discriminate|].
  unfold get_or_False. split.
  - intros ->. reflexivity.
  - intros [-> | ->]; reflexivity.
Qed.

(** Scenarios 2 and 3 *)
Lemma display_main_description_tag_scenarios :
  display.main (World := unit) (R := sample_Repr)
               (VDict [("detail", VDict [("passed", VBool true)])])
               conftest.sample_attestation (VDict []) tt
  = (Ok (VDict [("description",
                 VStr "A simple boolean check - the most minimal control possible");
                ("tag", VStr "Value: True")]), tt) /\
  display.main (World := unit) (R := sample_Repr)
               (VDict [("detail", VDict [("passed", VBool false)])])
               conftest.sample_attestation (VDict []) tt
  = (Ok (VDict [("description",
                 VStr "A simple boolean check - the most minimal control possible");
                ("tag", VStr "Value: False")]), tt).
Proof.
  split.
  - destruct (display_main_description_tag
                (R := sample_Repr)
                (VDict [("detail", VDict [("passed", VBool true)])])
                conftest.sample_attestation (VDict [])
                [("passed", VBool true)] tt eq_refl)
      as (tag & Hrun & _ & _ & Htrue & _).
    rewrite Hrun, (Htrue eq_refl). reflexivity.
  - destruct (display_main_description_tag
                (R := sample_Repr)
                (VDict [("detail", VDict [("passed", VBool false)])])
                conftest.sample_attestation (VDict [])
                [("passed", VBool false)] tt eq_refl)
      as (tag & Hrun & _ & _ & _ & Hfalse).
    rewrite Hrun, (Hfalse (or_introl eq_refl)). reflexivity.
Defined.

(** C4, as stated, fails: the two occurrences of the harness's own
    consistency test have distinct detail summaries (total 10 against 20) and
    get the same tag; and two detail mapper outputs that differ,
    [{passed: "True"}] and [{passed: True}], get the same tag as well. *)
Lemma display_main_tags_collapse :
  (lookup "detail" [("detail", VDict [("summary", VDict [("total", VInt 10)])])]
   <> lookup "detail" [("detail", VDict [("summary", VDict [("total", VInt 20)])])]
   /\
   display.main (World := unit) (R := sample_Repr) test_display.occ1
                test_display.sample_attestation (VDict []) tt
   = (Ok (VDict [("description", VStr description);
                 ("tag", VStr "Value: False")]), tt) /\
   display.main (World := unit) (R := sample_Repr) test_display.occ2
                test_display.sample_attestation (VDict []) tt
   = (Ok (VDict [("description", VStr description);
                 ("tag", VStr "Value: False")]), tt)) /\
  (detail.main (World := unit)
               (VDict [("detail", VDict [("check_passed", VStr "True")])])
               (VDict []) tt
   = (Ok (VDict [("passed", VStr "True")]), tt) /\
   detail.main (World := unit)
               (VDict [("detail", VDict [("check_passed", VBool true)])])
               (VDict []) tt
   = (Ok (VDict [("passed", VBool true)]), tt) /\
   VDict [("passed", VStr "True")] <> VDict [("passed", VBool true)] /\
   display.main (World := unit) (R := sample_Repr)
                (VDict [("detail", VDict [("passed", VStr "True")])])
                test_display.sample_attestation (VDict []) tt
   = display.main (World := unit) (R := sample_Repr)
                  (VDict [("detail", VDict [("passed", VBool true)])])
                  test_display.sample_attestation (VDict []) tt).
Proof.
  repeat split; try reflexivity; intros H; inversion H.
Qed.

(** C4 (amended): the tag is a non-empty string fixed by [detail["passed"]]
    alone ([False] when absent): two occurrences get the same tag exactly
    when their [passed] values print the same, so two occurrences whose
    [passed] values are different booleans get different tags, and
    occurrences that differ elsewhere in the detail do not. *)
Theorem display_main_tag_varies_with_passed {World} {R : Repr}
        (o1 o2 a1 a2 c1 c2 : value) e1 e2 (w : World) :
  detail_is o1 e1 ->
  detail_is o2 e2 ->
  exists tag1 tag2,
    display.main o1 a1 c1 w
    = (Ok (VDict [("description", VStr description); ("tag", VStr tag1)]), w) /\
    display.main o2 a2 c2 w
    = (Ok (VDict [("description", VStr description); ("tag", VStr tag2)]), w) /\
    tag1 <> "" /\ tag2 <> "" /\
    (tag1 = tag2 <->
     str (get_or_False "passed" e1) = str (get_or_False "passed" e2)) /\
    (forall b1 b2,
        get_or_False "passed" e1 = VBool b1 ->
        get_or_False "passed" e2 = VBool b2 ->
        b1 <> b2 -> tag1 <> tag2).
Proof.
  intros H1 H2.
  exists ("Value: " ++ str (get_or_False "passed" e1)),
         ("Value: " ++ str (get_or_False "passed" e2)).
  split; [apply display_main_on_detail, detail_is_or_default, H1|].
  split; [apply display_main_on_detail, detail_is_or_default, H2|].
  split; [discriminate|]. split; [discriminate|]. split.
  - split; [apply append_inj_l | intros ->; reflexivity].
  - intros b1 b2 -> -> Hb Heq. apply append_inj_l in Heq.
    destruct b1, b2; simpl in Heq; congruence.
Qed.

Lemma display_main_tag_varies_with_passed_witness :
  exists tag1 tag2,
    display.main (World := unit) (R := sample_Repr)
                 (VDict [("detail", VDict [("passed", VBool true)])])
                 conftest.sample_attestation (VDict []) tt
    = (Ok (VDict [("description", VStr description); ("tag", VStr tag1)]), tt) /\
    display.main (World := unit) (R := sample_Repr)
                 (VDict [("detail", VDict [])])
                 conftest.sample_attestation (VDict []) tt
    = (Ok (VDict [("description", VStr description); ("tag", VStr tag2)]), tt) /\
    tag1 <> tag2.
Proof.
  destruct (display_main_tag_varies_with_passed
              (R := sample_Repr)
              (VDict [("detail", VDict [("passed", VBool true)])])
              (VDict [("detail", VDict [])])
              conftest.sample_attestation conftest.sample_attestation
              (VDict []) (VDict [])
              [("passed", VBool true)] [] tt eq_refl eq_refl)
    as (t1 & t2 & Hr1 & Hr2 & _ & _ & _ & Hdiff).
  exists t1, t2. split; [exact Hr1|]. split; [exact Hr2|].
  apply (Hdiff true false); [reflexivity | reflexivity | discriminate].
Defined.

(** C5: for two occurrences that differ only in numeric detail fields, and
    every attestation and context, [display.main] returns on both, and the
    two results hold the same [description]. *)
Theorem display_main_description_stable {World} {R : Repr}
        (o1 o2 a c : value) (w : World) :
  differ_only_in_numeric_detail_fields o1 o2 ->
  exists r1 r2 text,
    display.main o1 a c w = (Ok (VDict r1), w) /\
    display.main o2 a c w = (Ok (VDict r2), w) /\
    lookup "description" r1 = Some (VStr text) /\
    lookup "description" r2 = Some (VStr text).
Proof.
  destruct o1 as [| | | | | |d1]; try contradiction.
  destruct o2 as [| | | | | |d2]; try contradiction.
  simpl. intros [_ H].
  destruct (lookup "detail" d1) as [[| | | | | |e1]|] eqn:H1; try contradiction.
  destruct (lookup "detail" d2) as [[| | | | | |e2]|] eqn:H2; try contradiction.
  do 2 eexists. exists description.
  split; [apply (display_main_on_detail _ _ _ e1); simpl; rewrite H1; reflexivity|].
  split; [apply (display_main_on_detail _ _ _ e2); simpl; rewrite H2; reflexivity|].
  split; reflexivity.
Qed.

Lemma display_main_description_stable_witness :
  exists r1 r2 text,
    display.main (World := unit) (R := sample_Repr) test_display.occ1
                 test_display.sample_attestation (VDict []) tt
    = (Ok (VDict r1), tt) /\
    display.main (World := unit) (R := sample_Repr) test_display.occ2
                 test_display.sample_attestation (VDict []) tt
    = (Ok (VDict r2), tt) /\
    lookup "description" r1 = Some (VStr text) /\
    lookup "description" r2 = Some (VStr text).
Proof.
  apply (display_main_description_stable
           (R := sample_Repr) test_display.occ1 test_display.occ2
           test_display.sample_attestation (VDict []) tt).
  split; [|reflexivity].
  intros k Hk. cbn [lookup].
  destruct (String.eqb_spec "detail" k) as [E|E];
    [exfalso; apply Hk; symmetry; exact E | reflexivity].
Defined.

(** ** Determinism and noninterference *)

Lemma detail_main_state {World} (o c : value) (w : World) :
  snd (detail.main o c w) = w.
Proof.
  destruct o; try reflexivity. unfold detail.main, bind. rewrite get_dict.
  destruct (lookup "detail" d) as [[]|]; reflexivity.
Qed.

Lemma display_main_state {World} {R : Repr} (o a c : value) (w : World) :
  snd (display.main o a c w) = w.
Proof.
  destruct o; try reflexivity. unfold display.main, bind. rewrite get_dict.
  destruct (lookup "detail" d) as [[]|]; reflexivity.
Qed.

Lemma detail_main_result {World} (o c : value) (w1 w2 : World) :
  fst (detail.main o c w1) = fst (detail.main o c w2).
Proof.
  destruct o; try reflexivity. unfold detail.main, bind. rewrite !get_dict.
  destruct (lookup "detail" d) as [[]|]; reflexivity.
Qed.

Lemma display_main_result {World} {R : Repr} (o a c : value) (w1 w2 : World) :
  fst (display.main o a c w1) = fst (display.main o a c w2).
Proof.
  destruct o; try reflexivity. unfold display.main, bind. rewrite !get_dict.
  destruct (lookup "detail" d) as [[]|]; reflexivity.
Qed.

Lemma twice_pure {World A} (m : M World A) (w : World) :
  (forall u, snd (m u) = u) ->
  (forall u u', fst (m u) = fst (m u')) ->
  twice m w
  = (match fst (m w) with Ok r => Ok (r, r) | Raise e => Raise e end, w).
Proof.
  intros Hs Hr. unfold twice, bind, ret.
  pose proof (Hs w) as Hw.
  destruct (m w) as [[r|e] w1] eqn:Hm; simpl in *; subst; [|reflexivity].
  rewrite Hm. reflexivity.
Qed.

(** C6: both mappers are deterministic.  The result of [detail.main(o, c)]
    and of [display.main(o, a, c)] is the same in whatever interpreter state
    the call is made, and the call leaves the state as it found it; so two
    invocations in a row with the same arguments give the same output (or
    raise the same exception). *)
Theorem mappers_deterministic {World} {R : Repr} (o a c : value) (w1 w2 : World) :
  fst (detail.main o c w1) = fst (detail.main o c w2) /\
  snd (detail.main o c w1) = w1 /\
  fst (display.main o a c w1) = fst (display.main o a c w2) /\
  snd (display.main o a c w1) = w1 /\
  twice (detail.main o c) w1
  = (match fst (detail.main o c w1) with
     | Ok r => Ok (r, r)
     | Raise e => Raise e
     end, w1) /\
  twice (display.main o a c) w1
  = (match fst (display.main o a c w1) with
     | Ok r => Ok (r, r)
     | Raise e => Raise e
     end, w1).
Proof.
  split; [apply detail_main_result|].
  split; [apply detail_main_state|].
  split; [apply display_main_result|].
  split; [apply display_main_state|].
  split.
  - apply twice_pure; intros; [apply detail_main_state | apply detail_main_result].
  - apply twice_pure; intros; [apply display_main_state | apply display_main_result].
Qed.

(** C9: the outputs of the quickstart mappers depend on the occurrence only:
    [detail.main] gives the same outcome for any two contexts, and
    [display.main] for any two attestations and any two contexts ([None]
    included); an attestation with result [pass] and one with result [fail]
    give the same display. *)
Theorem mappers_depend_on_occurrence_only {World} {R : Repr}
        (o a1 a2 c1 c2 : value) (w : World) :
  detail.main o c1 w = detail.main o c2 w /\
  detail.main o c1 w = detail.main o VNone w /\
  display.main o a1 c1 w = display.main o a2 c2 w /\
  display.main o a1 c1 w = display.main o VNone VNone w /\
  display.main o conftest.sample_attestation c1 w
  = display.main o test_display.sample_attestation c2 w.
Proof. repeat split. Qed.

(** ** The corpus and integration checks of the harness *)

(** What the body of the corpus loop raises: the message of [pytest.fail],
    which starts with the file name, unless the mapper itself raised
    something that is not an [Exception]. *)
Lemma process_payload_raises {World}
      (detail_mapper : value -> value -> M World value) filename payload
      w w' e :
  test_detail.process_payload detail_mapper (filename, payload) w
  = (Raise e, w') ->
  (exists e0,
      is_Exception e0 = true /\
      e = Failed (filename ++ ": Failed to process: " ++ str_exn e0)) \/
  (is_Exception e = false /\
   detail_mapper payload (VDict []) w = (Raise e, w')).
Proof.
  unfold test_detail.process_payload, try_except.
  match goal with |- context [match ?b w with _ => _ end] => set (body := b) end.
  destruct (body w) as [[[]|e0] w0] eqn:Hbody; [discriminate|].
  destruct (is_Exception e0) eqn:He0.
  - unfold raise. intros H. inversion H; subst. left. eauto.
  - intros H. inversion H; subst. right. split; [exact He0|].
    revert Hbody. unfold body, bind.
    destruct (detail_mapper payload (VDict []) w) as [[r|e1] w1].
    + destruct r; simpl; unfold raise;
        try (intros Hb; inversion Hb; subst; discriminate).
      destruct (has_key "summary" d); simpl; unfold raise;
        intros Hb; inversion Hb; subst; discriminate.
    + intros Hb. inversion Hb; subst. reflexivity.
Qed.

(** C7, as stated, fails.  With the quickstart detail mapper the fixture
    [b.json] fails the corpus check on its own, but when it follows the
    failing [a.json] the report of the check is the failure of [a.json] and
    does not mention [b.json].  The integration check likewise reports the
    first of two failing payloads only, as the mapper's bare exception,
    which names no fixture. *)
Lemma checks_report_first_failure_only :
  (test_detail.test_all_payloads_process_successfully
     (World := unit) detail.main [("b.json", conftest.empty_occurrence)] tt
   = (Raise (Failed "b.json: Failed to process: b.json: Should have summary"),
      tt) /\
   test_detail.test_all_payloads_process_successfully
     (World := unit) detail.main
     [("a.json", conftest.empty_occurrence);
      ("b.json", conftest.empty_occurrence)] tt
   = (Raise (Failed "a.json: Failed to process: a.json: Should have summary"),
      tt) /\
   contains "b.json" "a.json: Failed to process: a.json: Should have summary"
   = false) /\
  (test_display.test_display_works_with_detail_output
     (World := unit) detail.main (display.main (R := sample_Repr))
     [VList []] test_display.sample_attestation tt
   = (Raise (AttributeError "'list' object has no attribute 'get'"), tt) /\
   test_display.test_display_works_with_detail_output
     (World := unit) detail.main (display.main (R := sample_Repr))
     [VDict [("detail", VNone)]; VList []] test_display.sample_attestation tt
   = (Raise (AttributeError "'NoneType' object has no attribute 'get'"), tt)).
Proof. repeat split. Qed.

(** C7 (amended): each of the two checks is one loop over the fixtures that
    stops at the first fixture that fails.  When the fixtures before [entry]
    pass and [entry] fails, the report of the whole check is the failure of
    [entry], whatever fixtures follow it: for the corpus check the message of
    [pytest.fail], which starts with the file name of [entry] (or what the
    mapper raised, when that is not an [Exception]); for the integration
    check the failure of running the two mappers on that payload alone. *)
Theorem checks_stop_at_first_failing_fixture {World}
        (detail_mapper : value -> value -> M World value)
        (display_mapper : value -> value -> value -> M World value)
        (attestation : value) :
  (forall pre filename payload post w w1 w2 e,
      test_detail.test_all_payloads_process_successfully detail_mapper pre w
      = (Ok tt, w1) ->
      test_detail.process_payload detail_mapper (filename, payload) w1
      = (Raise e, w2) ->
      test_detail.test_all_payloads_process_successfully
        detail_mapper (pre ++ (filename, payload) :: post) w
      = (Raise e, w2) /\
      ((exists e0,
           is_Exception e0 = true /\
           e = Failed (filename ++ ": Failed to process: " ++ str_exn e0)) \/
       (is_Exception e = false /\
        detail_mapper payload (VDict []) w1 = (Raise e, w2)))) /\
  (forall pre payload post w w1 w2 e,
      test_display.test_display_works_with_detail_output
        detail_mapper display_mapper pre attestation w
      = (Ok tt, w1) ->
      test_display.integrate_payload
        detail_mapper display_mapper attestation payload w1
      = (Raise e, w2) ->
      test_display.test_display_works_with_detail_output
        detail_mapper display_mapper (pre ++ payload :: post) attestation w
      = (Raise e, w2)).
Proof.
  split.
  - intros pre filename payload post w w1 w2 e Hpre Hfail. split.
    + unfold test_detail.test_all_payloads_process_successfully in *.
      eapply for_each_stops; eassumption.
    + eapply process_payload_raises; eassumption.
  - intros pre payload post w w1 w2 e Hpre Hfail.
    unfold test_display.test_display_works_with_detail_output in *.
    eapply for_each_stops; eassumption.
Qed.

Lemma checks_stop_at_first_failing_fixture_witness :
  test_detail.test_all_payloads_process_successfully
    (World := unit) detail.main
    ([] ++ ("a.json", conftest.empty_occurrence)
        :: [("b.json", conftest.empty_occurrence)]) tt
  = (Raise (Failed "a.json: Failed to process: a.json: Should have summary"),
     tt) /\
  test_display.test_display_works_with_detail_output
    (World := unit) detail.main (display.main (R := sample_Repr))
    ([conftest.empty_occurrence] ++ VDict [("detail", VNone)] :: [VList []])
    test_display.sample_attestation tt
  = (Raise (AttributeError "'NoneType' object has no attribute 'get'"), tt).
Proof.
  split.
  - apply (proj1 (checks_stop_at_first_failing_fixture
                    (World := unit) detail.main (display.main (R := sample_Repr))
                    test_display.sample_attestation)
                 [] "a.json" conftest.empty_occurrence
                 [("b.json", conftest.empty_occurrence)] tt tt tt);
      reflexivity.
  - apply (proj2 (checks_stop_at_first_failing_fixture
                    (World := unit) detail.main (display.main (R := sample_Repr))
                    test_display.sample_attestation)
                 [conftest.empty_occurrence] (VDict [("detail", VNone)])
                 [VList []] tt tt tt);
      reflexivity.
Defined.

(** ** Strings *)

Lemma append_assoc (a b c : string) : (a ++ b) ++ c = a ++ b ++ c.
Proof. induction a as [|ch a IH]; simpl; [reflexivity | now rewrite IH]. Qed.

Lemma append_empty_inv (a b : string) : a ++ b = "" -> a = "" /\ b = "".
Proof. destruct a; simpl; [auto | discriminate]. Qed.

Lemma prefix_append_r (a s t : string) :
  String.prefix a s = true -> String.prefix a (s ++ t) = true.
Proof.
  revert s. induction a as [|ch a IH]; intros s; simpl.
  - intros _. now destruct (s ++ t).
  - destruct s as [|ch' s]; simpl; [discriminate|].
    destruct (ascii_dec ch ch'); [apply IH | discriminate].
Qed.

Lemma append_if_nonempty_nil s :
  conftest.append_if_nonempty s = [] <-> s = "".
Proof. destruct s; simpl; split; congruence. Qed.

Lemma append_if_nonempty_In s x :
  In x (conftest.append_if_nonempty s) -> x = s /\ s <> "".
Proof. destruct s; simpl; [tauto|]. intros [<-|[]]. split; congruence. Qed.

(** A join of non-empty lines is empty only when there is no line. *)
Lemma join_empty sep xs :
  Forall (fun x => x <> "") xs -> join sep xs = "" -> xs = [].
Proof.
  destruct xs as [|x xs]; [reflexivity|].
  intros H. inversion H; subst. simpl. destruct xs.
  - contradiction.
  - intros E. apply append_empty_inv in E. tauto.
Qed.

(** ** Dicts *)

Lemma lookup_In {A} k (d : list (string * A)) v :
  lookup k d = Some v -> In (k, v) d.
Proof.
  induction d as [|[k' v'] d IH]; simpl; [discriminate|].
  destruct (String.eqb_spec k' k).
  - intros H. inversion H; subst. now left.
  - intros H. right. auto.
Qed.

Lemma has_key_In {A} k (d : list (string * A)) :
  has_key k d = true <-> In k (keys d).
Proof.
  unfold has_key. induction d as [|[k' v'] d IH]; simpl.
  - split; [discriminate | contradiction].
  - destruct (String.eqb_spec k' k).
    + split; auto.
    + rewrite IH. split; [auto | intros [|]; [contradiction | assumption]].
Qed.

Lemma lookup_map_snd {A B} (f : A -> B) k (d : list (string * A)) :
  lookup k (map (fun kv => (fst kv, f (snd kv))) d)
  = option_map f (lookup k d).
Proof.
  induction d as [|[k' v'] d IH]; simpl; [reflexivity|].
  destruct (String.eqb k' k); [reflexivity | exact IH].
Qed.

(** ** [json_diff] *)

Section JsonDiffProps.
Context {R : Repr} {SI : conftest.SetIter}.

(** The dict branch of [_diff], as the source writes its loop *)
Lemma _diff_dict d1 d2 path :
  conftest._diff (VDict d1) (VDict d2) path
  = join (String "010" "") (flat_map (conftest.key_diffs d1 d2 path)
                      (conftest.set_iter (keys d1 ++ keys d2))).
Proof.
  simpl. f_equal. apply flat_map_ext. intros key.
  unfold conftest.key_diffs. rewrite lookup_map_snd.
  destruct (lookup key d1); reflexivity.
Qed.

(** The list branch of [_diff] *)
Lemma _diff_list l1 l2 path :
  conftest._diff (VList l1) (VList l2) path
  = if negb (Nat.eqb (List.length l1) (List.length l2)) then
      path ++ ": List length mismatch " ++ str_nat (List.length l1)
           ++ " vs " ++ str_nat (List.length l2)
    else join (String "010" "") (conftest.list_diffs path 0 l1 l2).
Proof.
  simpl. destruct (negb (Nat.eqb (List.length l1) (List.length l2)));
    [reflexivity|].
  f_equal. generalize 0%nat. revert l2.
  induction l1 as [|x l1 IH]; intros [|y l2] i; simpl; try reflexivity.
  f_equal. apply IH.
Qed.

Lemma key_diffs_nonempty d1 d2 path key :
  Forall (fun x => x <> "") (conftest.key_diffs d1 d2 path key).
Proof.
  unfold conftest.key_diffs.
  destruct (lookup key d1) as [v1|].
  - destruct (lookup key d2) as [v2|].
    + apply Forall_forall. intros x Hx.
      apply append_if_nonempty_In in Hx. destruct Hx as [-> Hx]. exact Hx.
    + constructor; [|constructor]. intros E.
      apply append_empty_inv in E. destruct E as [_ E].
      apply append_empty_inv in E. destruct E as [E _]. discriminate.
  - constructor; [|constructor]. intros E.
    apply append_empty_inv in E. destruct E as [_ E].
    apply append_empty_inv in E. destruct E as [E _]. discriminate.
Qed.

Lemma list_diffs_nonempty path i l1 l2 :
  Forall (fun x => x <> "") (conftest.list_diffs path i l1 l2).
Proof.
  revert i l2. induction l1 as [|x l1 IH]; intros i [|y l2]; simpl;
    try constructor.
  apply Forall_app. split; [|apply IH].
  apply Forall_forall. intros z Hz.
  apply append_if_nonempty_In in Hz. destruct Hz as [-> Hz]. exact Hz.
Qed.

Lemma flat_map_nonempty {A} (f : A -> list string) xs :
  (forall x, Forall (fun s => s <> "") (f x)) ->
  Forall (fun s => s <> "") (flat_map f xs).
Proof.
  intros H. induction xs; simpl; [constructor|].
  apply Forall_app. auto.
Qed.

Lemma flat_map_nil {A B} (f : A -> list B) xs :
  flat_map f xs = [] <-> forall x, In x xs -> f x = [].
Proof.
  induction xs as [|a xs IH]; simpl.
  - split; [intros _ x [] | reflexivity].
  - split.
    + intros E. apply app_eq_nil in E. destruct E as [Ea E].
      intros x [<-|Hx]; [exact Ea | apply IH; assumption].
    + intros H. rewrite (H a (or_introl eq_refl)). simpl.
      apply IH. intros x Hx. apply H. now right.
Qed.

Lemma type_mismatch_nonempty path (x y : value) :
  path ++ ": Type mismatch " ++ type_name x ++ " vs " ++ type_name y <> "".
Proof.
  intros E. apply append_empty_inv in E. destruct E as [_ E]. discriminate.
Qed.

Lemma diff_empty_struct_eq x :
  forall y path, conftest._diff x y path = "" -> struct_eq x y.
Proof.
  induction x as [| b | z | f | s | l1 IH | d1 IH] using value_ind;
    intros y path; destruct y as [| b' | z' | f' | s' | l2 | d2];
    try (intros E; exfalso; revert E; apply type_mismatch_nonempty).
  - intros _. constructor.
  - simpl. destruct (Bool.eqb b b') eqn:E; simpl.
    + apply Bool.eqb_prop in E. subst. constructor.
    + intros H. apply append_empty_inv in H. destruct H as [_ H]. discriminate.
  - simpl. destruct (Z.eqb_spec z z'); simpl.
    + subst. constructor.
    + intros H. apply append_empty_inv in H. destruct H as [_ H]. discriminate.
  - simpl. destruct (PrimFloat.eqb f f') eqn:E; simpl.
    + constructor. exact E.
    + intros H. apply append_empty_inv in H. destruct H as [_ H]. discriminate.
  - simpl. destruct (String.eqb_spec s s'); simpl.
    + subst. constructor.
    + intros H. apply append_empty_inv in H. destruct H as [_ H]. discriminate.
  - rewrite _diff_list.
    destruct (Nat.eqb_spec (List.length l1) (List.length l2)) as [Hlen|Hlen];
      simpl.
    + intros E. apply join_empty in E; [|apply list_diffs_nonempty].
      constructor. revert E Hlen. generalize 0%nat. revert l2.
      induction IH as [|x l1 Hx _ IHl]; intros [|y l2] i; simpl;
        try discriminate; [constructor|].
      intros E Hlen. apply app_eq_nil in E. destruct E as [Ex E].
      constructor.
      * apply append_if_nonempty_nil in Ex. eapply Hx. exact Ex.
      * apply (IHl l2 (S i)); [exact E | congruence].
    + intros H. apply append_empty_inv in H. destruct H as [_ H]. discriminate.
  - rewrite _diff_dict. intros E.
    apply join_empty in E;
      [|apply flat_map_nonempty; intros; apply key_diffs_nonempty].
    rewrite flat_map_nil in E.
    assert (Hboth : forall k, In k (keys d1 ++ keys d2) ->
              exists v1 v2, lookup k d1 = Some v1 /\ lookup k d2 = Some v2 /\
                            conftest._diff v1 v2 (path ++ "." ++ k) = "").
    { intros k Hk. apply (proj2 (conftest.set_iter_In _ _)) in Hk.
      specialize (E k Hk).
      unfold conftest.key_diffs in E.
      destruct (lookup k d1) as [v1|]; [|discriminate].
      destruct (lookup k d2) as [v2|]; [|discriminate].
      apply append_if_nonempty_nil in E. eauto. }
    constructor.
    + intros k. destruct (has_key k d1) eqn:H1.
      * apply has_key_In in H1.
        destruct (Hboth k) as (v1 & v2 & _ & H2 & _);
          [apply in_or_app; now left|].
        unfold has_key. now rewrite H2.
      * destruct (has_key k d2) eqn:H2; [|reflexivity].
        apply has_key_In in H2.
        destruct (Hboth k) as (v1 & v2 & H1' & _ & _);
          [apply in_or_app; now right|].
        unfold has_key in H1. rewrite H1' in H1. discriminate.
    + intros k v1 v2 H1 H2.
      destruct (Hboth k) as (u1 & u2 & H1' & H2' & Hd).
      { apply in_or_app. left. apply has_key_In. unfold has_key. now rewrite H1. }
      rewrite H1 in H1'. rewrite H2 in H2'.
      inversion H1'; inversion H2'; subst.
      rewrite Forall_forall in IH.
      apply (IH (k, u1) (lookup_In _ _ _ H1) u2 _ Hd).
Qed.

Lemma struct_eq_diff_empty x :
  forall y, struct_eq x y -> forall path, conftest._diff x y path = "".
Proof.
  induction x as [| b | z | f | s | l1 IH | d1 IH] using value_ind;
    intros y H path; destruct y as [| b' | z' | f' | s' | l2 | d2];
    inversion H as [ | | | ? ? Hf | | ? ? HF2 | ? ? Hk Hv]; subst.
  - reflexivity.
  - simpl. now rewrite Bool.eqb_reflx.
  - simpl. now rewrite Z.eqb_refl.
  - simpl. now rewrite Hf.
  - simpl. now rewrite String.eqb_refl.
  - rewrite _diff_list.
    rewrite (Forall2_length HF2), Nat.eqb_refl. simpl.
    replace (conftest.list_diffs path 0 l1 l2) with (@nil string);
      [reflexivity|].
    symmetry. generalize 0%nat. clear H. revert l2 HF2.
    induction IH as [|x l1 Hx _ IHl]; intros l2 HF2 i;
      inversion HF2 as [|? y ? l2' Hxy HF2']; subst; simpl; [reflexivity|].
    rewrite (Hx _ Hxy). simpl. apply IHl. exact HF2'.
  - rewrite _diff_dict.
    replace (flat_map (conftest.key_diffs d1 d2 path)
                      (conftest.set_iter (keys d1 ++ keys d2)))
      with (@nil string); [reflexivity|].
    symmetry. apply flat_map_nil. intros k Hin.
    apply (proj1 (conftest.set_iter_In _ _)) in Hin.
    assert (H1 : has_key k d1 = true).
    { apply in_app_or in Hin. destruct Hin as [Hin|Hin].
      - now apply has_key_In.
      - rewrite Hk. now apply has_key_In. }
    assert (H2 : has_key k d2 = true) by (now rewrite <- Hk).
    unfold has_key in H1, H2. unfold conftest.key_diffs.
    destruct (lookup k d1) as [v1|] eqn:E1; [|discriminate].
    destruct (lookup k d2) as [v2|] eqn:E2; [|discriminate].
    rewrite Forall_forall in IH.
    rewrite (IH (k, v1) (lookup_In _ _ _ E1) v2 (Hv _ _ _ E1 E2)).
    reflexivity.
Qed.

Lemma nan_free_struct_eq x : nan_free x = true -> struct_eq x x.
Proof.
  induction x as [| b | z | f | s | l IH | d IH] using value_ind;
    simpl; intros H; try constructor.
  - unfold PrimFloat.is_nan in H. now rewrite negb_involutive in H.
  - induction IH as [|x l Hx _ IHl]; [constructor|].
    simpl in H. apply andb_prop in H. destruct H. constructor; auto.
  - reflexivity.
  - intros k v1 v2 H1 H2. rewrite H1 in H2. inversion H2; subst.
    rewrite Forall_forall in IH. rewrite forallb_forall in H.
    apply (IH (k, v2) (lookup_In _ _ _ H1)).
    apply (H (k, v2) (lookup_In _ _ _ H1)).
Qed.

Lemma flat_map_head {A B} (f : A -> list B) xs e rest :
  flat_map f xs = e :: rest ->
  exists x rest', In x xs /\ f x = e :: rest'.
Proof.
  induction xs as [|a xs IH]; simpl; [discriminate|].
  destruct (f a) as [|b l] eqn:Ea; simpl.
  - intros E. destruct (IH E) as (x & r & Hx & Hf). eauto.
  - intros E. inversion E; subst. exists a, l. auto.
Qed.

Lemma list_diffs_head path i0 l1 l2 e rest :
  conftest.list_diffs path i0 l1 l2 = e :: rest ->
  exists j x y,
    nth_error l1 j = Some x /\ nth_error l2 j = Some y /\
    e = conftest._diff x y (path ++ "[" ++ str_nat (i0 + j) ++ "]") /\
    e <> "".
Proof.
  revert i0 l2 rest. induction l1 as [|x l1 IH]; intros i0 [|y l2] rest;
    cbn [conftest.list_diffs]; try discriminate.
  destruct (conftest.append_if_nonempty
              (conftest._diff x y (path ++ "[" ++ str_nat i0 ++ "]")))
    as [|b l] eqn:Ea; cbn [app].
  - intros E. destruct (IH _ _ _ E) as (j & x' & y' & H1 & H2 & He & Hne).
    exists (S j), x', y'. rewrite Nat.add_succ_r. auto.
  - intros E. inversion E; subst.
    assert (Hin : In e (conftest.append_if_nonempty
                          (conftest._diff x y (path ++ "[" ++ str_nat i0 ++ "]"))))
      by (rewrite Ea; now left).
    apply append_if_nonempty_In in Hin. destruct Hin as [He Hne].
    exists 0%nat, x, y. rewrite Nat.add_0_r.
    repeat split; try assumption. now rewrite He.
Qed.

Lemma join_head sep e rest : exists t, join sep (e :: rest) = e ++ t.
Proof.
  simpl. destruct rest.
  - exists "". induction e; simpl; congruence.
  - eexists. reflexivity.
Qed.

Lemma prefix_shift (a b s : string) :
  String.prefix b s = true -> String.prefix (a ++ b) (a ++ s) = true.
Proof.
  intros H. induction a as [|ch a IH]; simpl; [exact H|].
  destruct (ascii_dec ch ch); [exact IH | congruence].
Qed.

Lemma prefix_exists_append_r {A} (P : A -> Prop) (q : A -> string) s t :
  (exists a, P a /\ String.prefix (q a) s = true) ->
  exists a, P a /\ String.prefix (q a) (s ++ t) = true.
Proof.
  intros (a & Ha & Hq). exists a. split; [exact Ha|].
  apply prefix_append_r. exact Hq.
Qed.

Lemma append_empty_r (s : string) : s ++ "" = s.
Proof. induction s; simpl; congruence. Qed.

(** A non-empty diff starts with a path at which the two values differ. *)
Lemma diff_names_path x :
  forall y path,
    conftest._diff x y path <> "" ->
    exists p,
      differ_at p x y = true /\
      String.prefix (path ++ render p ++ ": ") (conftest._diff x y path)
      = true.
Proof.
  assert (Hmismatch : forall x y path,
             same_type x y = false ->
             exists p,
               differ_at p x y = true /\
               String.prefix (path ++ render p ++ ": ")
                             (conftest._diff x y path) = true).
  { intros x0 y path Ht. exists []. split.
    - simpl. now rewrite Ht.
    - replace (conftest._diff x0 y path)
        with (path ++ ": Type mismatch " ++ type_name x0 ++ " vs "
                   ++ type_name y)
        by (destruct x0, y; try discriminate; reflexivity).
      apply prefix_shift. reflexivity. }
  assert (Hscalar : forall x y path,
             same_type x y = true ->
             match x with VList _ | VDict _ => False | _ => True end ->
             conftest._diff x y path <> "" ->
             exists p,
               differ_at p x y = true /\
               String.prefix (path ++ render p ++ ": ")
                             (conftest._diff x y path) = true).
  { intros x0 y path Ht Hx Hne. exists [].
    assert (E : conftest._diff x0 y path
                = if scalar_ne x0 y then
                    path ++ ": Value mismatch " ++ repr x0 ++ " vs " ++ repr y
                  else "")
      by (destruct x0, y; try discriminate; try contradiction; reflexivity).
    rewrite E in *. destruct (scalar_ne x0 y) eqn:Es; [|congruence]. split.
    - simpl. rewrite Ht. simpl.
      destruct x0, y; try discriminate; try contradiction; exact Es.
    - apply prefix_shift. reflexivity. }
  induction x as [| b | z | f | s | l1 IH | d1 IH] using value_ind;
    intros y path Hne;
    match goal with
    | |- context [conftest._diff ?x0 y path] =>
        destruct (same_type x0 y) eqn:Ht
    end;
    try (apply Hmismatch; exact Ht);
    try (apply Hscalar; [exact Ht | exact I | exact Hne]).
  - destruct y as [| | | | | l2 | ]; try discriminate.
    rewrite _diff_list in *.
    destruct (Nat.eqb (List.length l1) (List.length l2)) eqn:Hlen;
      cbn [negb] in *.
    + destruct (conftest.list_diffs path 0 l1 l2) as [|e rest] eqn:Hd;
        [contradiction|].
      destruct (list_diffs_head _ _ _ _ _ _ Hd)
        as (j & x & v & H1 & H2 & He & Hene).
      cbn [Nat.add] in He.
      rewrite Forall_forall in IH.
      destruct (IH x (nth_error_In _ _ H1) v (path ++ "[" ++ str_nat j ++ "]"))
        as (p & Hp & Hpre); [now rewrite <- He|].
      exists (Index j :: p). split.
      * cbn [differ_at]. now rewrite H1, H2.
      * destruct (join_head (String "010" "") e rest) as [t ->].
        apply prefix_append_r. rewrite He.
        replace (path ++ render (Index j :: p) ++ ": ")
          with ((path ++ "[" ++ str_nat j ++ "]") ++ render p ++ ": ");
          [exact Hpre|].
        cbn [render render_step]. now rewrite !append_assoc.
    + exists []. split; [cbn [differ_at same_type]; now rewrite Hlen|].
      apply prefix_shift. reflexivity.
  - destruct y as [| | | | | | d2]; try discriminate.
    rewrite _diff_dict in *.
    destruct (flat_map (conftest.key_diffs d1 d2 path)
                       (conftest.set_iter (keys d1 ++ keys d2)))
      as [|e rest] eqn:Hd; [contradiction|].
    destruct (flat_map_head _ _ _ _ Hd) as (k & rest' & Hk & Hkd).
    apply (proj1 (conftest.set_iter_In _ _)) in Hk.
    destruct (join_head (String "010" "") e rest) as [t ->].
    apply prefix_exists_append_r.
    unfold conftest.key_diffs in Hkd.
    destruct (lookup k d1) as [v1|] eqn:E1.
    + destruct (lookup k d2) as [v2|] eqn:E2.
      * assert (Hin : In e (conftest.append_if_nonempty
                              (conftest._diff v1 v2 (path ++ "." ++ k))))
          by (rewrite Hkd; now left).
        apply append_if_nonempty_In in Hin. destruct Hin as [He Hene].
        rewrite Forall_forall in IH.
        destruct (IH (k, v1) (lookup_In _ _ _ E1) v2 (path ++ "." ++ k))
          as (p & Hp & Hpre); [exact Hene|].
        exists (Key k :: p). split.
        -- cbn [differ_at]. now rewrite E1, E2.
        -- rewrite He.
           replace (path ++ render (Key k :: p) ++ ": ")
             with ((path ++ "." ++ k) ++ render p ++ ": ");
             [exact Hpre|].
           cbn [render render_step]. now rewrite !append_assoc.
      * injection Hkd as He _. subst e. exists [Key k]. split.
        -- cbn [differ_at]. now rewrite E1, E2.
        -- cbn [render render_step]. rewrite append_empty_r, !append_assoc.
           apply (prefix_shift path), (prefix_shift "."), (prefix_shift k).
           reflexivity.
    + injection Hkd as He _. subst e. exists [Key k].
      assert (E2 : exists v2, lookup k d2 = Some v2).
      { apply in_app_or in Hk. destruct Hk as [Hk|Hk];
          apply has_key_In in Hk; unfold has_key in Hk.
        - now rewrite E1 in Hk.
        - destruct (lookup k d2); [eauto | discriminate]. }
      destruct E2 as [v2 E2]. split.
      * cbn [differ_at]. now rewrite E1, E2.
      * cbn [render render_step]. rewrite append_empty_r, !append_assoc.
        apply (prefix_shift path), (prefix_shift "."), (prefix_shift k).
        reflexivity.
Qed.

(** C10 (amended): [_diff], and so [json_diff], returns the empty string
    exactly when its two arguments are structurally equal, scalars being
    compared with Python's [==] (under which a NaN float is not equal to
    itself); so [json_diff(x, x)] is empty for every value [x] that holds
    no NaN; and a non-empty result starts with a path at which the two
    values differ, followed by a colon. *)
Theorem json_diff_structural (x y : value) (path : string) :
  (conftest._diff x y path = "" <-> struct_eq x y) /\
  (conftest.json_diff x y = "" <-> struct_eq x y) /\
  (nan_free x = true -> conftest.json_diff x x = "") /\
  (conftest._diff x y path <> "" ->
   exists p,
     differ_at p x y = true /\
     String.prefix (path ++ render p ++ ": ") (conftest._diff x y path)
     = true) /\
  (conftest.json_diff x y <> "" ->
   exists p,
     differ_at p x y = true /\
     String.prefix (render p ++ ": ") (conftest.json_diff x y) = true).
Proof.
  split; [split; [apply diff_empty_struct_eq
                 | intros H; apply struct_eq_diff_empty; exact H]|].
  split; [split; [apply diff_empty_struct_eq
                 | intros H; apply struct_eq_diff_empty; exact H]|].
  split.
  - intros H. apply struct_eq_diff_empty, nan_free_struct_eq, H.
  - split; [apply diff_names_path|].
    intros H. apply (diff_names_path x y "" H).
Qed.
End JsonDiffProps.

(** C10, as stated, fails at a value that holds a NaN, which [json.load]
    produces from the literal [NaN]: [nan != nan] is true, so [json_diff] of
    the value with itself is a "Value mismatch", not the empty string. *)
Lemma json_diff_nan_not_empty :
  conftest.json_diff (R := sample_Repr) (SI := sample_SetIter)
                     (VFloat PrimFloat.nan) (VFloat PrimFloat.nan)
  = ": Value mismatch nan vs nan" /\
  conftest.json_diff (R := sample_Repr) (SI := sample_SetIter)
                     (VDict [("score", VFloat PrimFloat.nan)])
                     (VDict [("score", VFloat PrimFloat.nan)])
  = ".score: Value mismatch nan vs nan".
Proof. split; reflexivity. Qed.

Lemma json_diff_structural_witness :
  conftest.json_diff
    (R := sample_Repr) (SI := sample_SetIter)
    (VDict [("a", VList [VInt 1; VFloat PrimFloat.one]); ("b", VNone)])
    (VDict [("a", VList [VInt 1; VFloat PrimFloat.one]); ("b", VNone)])
  = "" /\
  exists p,
    differ_at p
      (VDict [("a", VList [VInt 1; VFloat PrimFloat.one]); ("b", VNone)])
      (VDict [("b", VNone); ("a", VList [VInt 1; VInt 2])])
    = true /\
    String.prefix
      (render p ++ ": ")
      (conftest.json_diff
         (R := sample_Repr) (SI := sample_SetIter)
         (VDict [("a", VList [VInt 1; VFloat PrimFloat.one]); ("b", VNone)])
         (VDict [("b", VNone); ("a", VList [VInt 1; VInt 2])]))
    = true.
Proof.
  split.
  - apply (json_diff_structural
             (R := sample_Repr) (SI := sample_SetIter)
             (VDict [("a", VList [VInt 1; VFloat PrimFloat.one]); ("b", VNone)])
             (VDict [("a", VList [VInt 1; VFloat PrimFloat.one]); ("b", VNone)])
             "").
    reflexivity.
  - apply (json_diff_structural
             (R := sample_Repr) (SI := sample_SetIter)
             (VDict [("a", VList [VInt 1; VFloat PrimFloat.one]); ("b", VNone)])
             (VDict [("b", VNone); ("a", VList [VInt 1; VInt 2])])
             "").
    vm_compute. discriminate.
Defined.

(** * Properties beyond the claims *)

(** ** The quickstart mappers: every input *)

Lemma without_get_None o : without_get o = None -> exists e, detail_or_default o e.
Proof.
  destruct o; simpl; try discriminate.
  destruct (lookup "detail" d) as [[]|]; try discriminate; intros _;
    eexists; reflexivity.
Qed.

Lemma detail_or_default_without_get o e :
  detail_or_default o e -> without_get o = None.
Proof.
  destruct o; simpl; try contradiction.
  destruct (lookup "detail" d) as [v|]; [intros ->|]; reflexivity.
Qed.

Lemma detail_main_without_get {World} (o c v : value) (w : World) :
  without_get o = Some v ->
  detail.main o c w
  = (Raise (AttributeError
              ("'" ++ type_name v ++ "' object has no attribute 'get'")), w).
Proof.
  destruct o; simpl; try (intros H; inversion H; subst; reflexivity).
  unfold detail.main, bind. rewrite get_dict.
  destruct (lookup "detail" d) as [[]|]; intros H; inversion H; subst;
    reflexivity.
Qed.

Lemma display_main_without_get {World} {R : Repr} (o a c v : value) (w : World) :
  without_get o = Some v ->
  display.main o a c w
  = (Raise (AttributeError
              ("'" ++ type_name v ++ "' object has no attribute 'get'")), w).
Proof.
  destruct o; simpl; try (intros H; inversion H; subst; reflexivity).
  unfold display.main, bind. rewrite get_dict.
  destruct (lookup "detail" d) as [[]|]; intros H; inversion H; subst;
    reflexivity.
Qed.

(** X1: the quickstart mappers raise exactly when the occurrence is not a
    mapping or its [detail] entry is present and not a mapping; what they
    raise is then the [AttributeError] of the object that has no [.get],
    named by its type, the same for both mappers, and the interpreter state
    is untouched.  On every other occurrence both return. *)
Theorem quickstart_mappers_raise_without_get {World} {R : Repr}
        (o a c : value) (w : World) :
  match without_get o with
  | Some v =>
      detail.main o c w
      = (Raise (AttributeError
                  ("'" ++ type_name v ++ "' object has no attribute 'get'")), w) /\
      display.main o a c w
      = (Raise (AttributeError
                  ("'" ++ type_name v ++ "' object has no attribute 'get'")), w)
  | None =>
      (exists r, detail.main o c w = (Ok r, w)) /\
      (exists r, display.main o a c w = (Ok r, w))
  end.
Proof.
  destruct (without_get o) as [v|] eqn:Hw.
  - split; [apply detail_main_without_get | apply display_main_without_get];
      exact Hw.
  - destruct (without_get_None _ Hw) as [e He]. split; eexists.
    + apply (detail_main_on_detail _ _ _ _ He).
    + apply (display_main_on_detail _ _ _ _ _ He).
Qed.

(** ** The splice of the integration check *)

Lemma lookup_dict_set_same d k v : lookup k (dict_set d k v) = Some v.
Proof.
  induction d as [|[k' v'] d IH]; simpl.
  - now rewrite String.eqb_refl.
  - destruct (String.eqb k' k) eqn:E; simpl; rewrite E; [reflexivity | exact IH].
Qed.

Lemma lookup_dict_set_other d k v k' :
  k' <> k -> lookup k' (dict_set d k v) = lookup k' d.
Proof.
  intros Hne. induction d as [|[k0 v0] d IH]; simpl.
  - destruct (String.eqb_spec k k'); [congruence | reflexivity].
  - destruct (String.eqb_spec k0 k) as [->|Hk]; simpl.
    + destruct (String.eqb_spec k k'); [congruence | reflexivity].
    + destruct (String.eqb k0 k'); [reflexivity | exact IH].
Qed.

Lemma keys_dict_set d k v :
  keys (dict_set d k v) = if has_key k d then keys d else (keys d ++ [k])%list.
Proof.
  unfold has_key. induction d as [|[k0 v0] d IH]; simpl; [reflexivity|].
  destruct (String.eqb k0 k) eqn:E; simpl; [reflexivity|].
  rewrite IH. now destruct (lookup k d).
Qed.

(** X2: [{**payload, "detail": mapped_detail}] of the integration check.  For
    a payload that is a mapping the result is a mapping whose [detail] is the
    mapped detail and whose every other field is the payload's; the fields
    keep the payload's order, [detail] keeping its place when the payload had
    one and coming last otherwise.  A payload that is not a mapping raises
    [TypeError]. *)
Theorem splice_replaces_detail_only {World} (payload mapped_detail : value)
        (w : World) :
  match payload with
  | VDict d =>
      exists d',
        splat_with payload "detail" mapped_detail w = (Ok (VDict d'), w) /\
        lookup "detail" d' = Some mapped_detail /\
        (forall k, k <> "detail" -> lookup k d' = lookup k d) /\
        keys d' = (if has_key "detail" d then keys d
                   else (keys d ++ ["detail"])%list)
  | _ =>
      splat_with payload "detail" mapped_detail w
      = (Raise (TypeError ("'" ++ type_name payload
                               ++ "' object is not a mapping")), w)
  end.
Proof.
  destruct payload; try reflexivity.
  exists (dict_set d "detail" mapped_detail).
  split; [reflexivity|]. split; [apply lookup_dict_set_same|].
  split; [intros k Hk; now apply lookup_dict_set_other | apply keys_dict_set].
Qed.

Lemma quickstart_pipeline_steps {World} {R : Repr} (payload attestation : value)
      e (w : World) :
  detail_or_default payload e ->
  (forall c,
      exists spliced,
        (mapped_detail <- detail.main payload (VDict []) ;;
         splat_with payload "detail" mapped_detail) w
        = (Ok spliced, w) /\
        detail_is spliced [("passed", get_or_False "check_passed" e)] /\
        display.main spliced attestation c w
        = (Ok (VDict [("description", VStr description);
                      ("tag", VStr ("Value: "
                                      ++ str (get_or_False "check_passed" e)))]),
           w)) /\
  test_display.integrate_payload
    detail.main display.main attestation payload w
  = (Ok tt, w).
Proof.
  intros H. pose proof (detail_main_on_detail payload (VDict []) e w H) as Hd.
  destruct payload as [| | | | | |d]; try contradiction.
  set (m := VDict [("passed", get_or_False "check_passed" e)]) in *.
  assert (Hs : detail_is (VDict (dict_set d "detail" m))
                         [("passed", get_or_False "check_passed" e)])
    by apply lookup_dict_set_same.
  assert (Hdisp : forall att c0,
             display.main (VDict (dict_set d "detail" m)) att c0 w
             = (Ok (VDict [("description", VStr description);
                           ("tag", VStr ("Value: "
                                           ++ str (get_or_False "check_passed" e)))]),
                w)).
  { intros att c0.
    rewrite (display_main_on_detail _ att c0 _ w (detail_is_or_default _ _ Hs)).
    reflexivity. }
  split.
  - intros c. exists (VDict (dict_set d "detail" m)).
    split; [rewrite (bind_Ok _ _ _ _ _ Hd); reflexivity|].
    split; [exact Hs | apply Hdisp].
  - unfold test_display.integrate_payload.
    rewrite (bind_Ok _ _ _ _ _ Hd). unfold bind at 1. cbn [splat_with ret].
    unfold try_except, bind. rewrite Hdisp. reflexivity.
Qed.

(** X3: the two quickstart mappers composed as the integration check composes
    them.  For a payload that is a mapping whose [detail] is absent or a
    mapping [e], the detail mapper's output spliced into the payload is an
    occurrence whose detail is [{passed: v}], [v] being [e["check_passed"]]
    or [False]; the display mapper turns it into the constant description and
    the tag ["Value: " + str(v)]; and the loop body of the integration check
    passes. *)
Theorem quickstart_pipeline {World} {R : Repr} (payload attestation c : value)
        e (w : World) :
  detail_or_default payload e ->
  exists spliced,
    (mapped_detail <- detail.main payload (VDict []) ;;
     splat_with payload "detail" mapped_detail) w
    = (Ok spliced, w) /\
    detail_is spliced [("passed", get_or_False "check_passed" e)] /\
    display.main spliced attestation c w
    = (Ok (VDict [("description", VStr description);
                  ("tag", VStr ("Value: "
                                  ++ str (get_or_False "check_passed" e)))]), w) /\
    test_display.integrate_payload
      detail.main display.main attestation payload w
    = (Ok tt, w).
Proof.
  intros H.
  destruct (quickstart_pipeline_steps payload attestation e w H) as [Hc Hi].
  destruct (Hc c) as (spliced & H1 & H2 & H3).
  exists spliced. auto.
Qed.

Lemma quickstart_pipeline_witness :
  exists spliced,
    detail_is spliced [("passed", VBool true)] /\
    display.main (World := unit) (R := sample_Repr) spliced
                 test_display.sample_attestation (VDict []) tt
    = (Ok (VDict [("description", VStr description);
                  ("tag", VStr "Value: True")]), tt).
Proof.
  destruct (quickstart_pipeline
              (R := sample_Repr)
              (VDict [("asset", VNone);
                      ("detail", VDict [("check_passed", VBool true)])])
              test_display.sample_attestation (VDict [])
              [("check_passed", VBool true)] tt eq_refl)
    as (spliced & _ & Hs & Hd & _).
  exists spliced. split; [exact Hs | exact Hd].
Defined.

(** ** The corpus and integration checks: what passing means *)

Lemma for_each_passes {World A} (body : A -> M World unit) xs w w' :
  for_each xs body w = (Ok tt, w') ->
  forall x, In x xs -> exists u u', body x u = (Ok tt, u').
Proof.
  revert w. induction xs as [|y xs IH]; intros w H x Hin; simpl in *.
  - contradiction.
  - unfold bind in H. destruct (body y w) as [[[]|e'] w1] eqn:Hy.
    + destruct Hin as [->|Hin]; eauto.
    + discriminate.
Qed.

Lemma for_each_all {World A} (body : A -> M World unit) xs (w : World) :
  (forall x, In x xs -> body x w = (Ok tt, w)) ->
  for_each xs body w = (Ok tt, w).
Proof.
  induction xs as [|y xs IH]; intros H; simpl; [reflexivity|].
  rewrite (bind_Ok _ _ _ _ _ (H y (or_introl eq_refl))).
  apply IH. intros x Hx. apply H. now right.
Qed.

Lemma process_payload_passes {World}
      (detail_mapper : value -> value -> M World value) filename payload w w' :
  test_detail.process_payload detail_mapper (filename, payload) w = (Ok tt, w') ->
  exists d,
    detail_mapper payload (VDict []) w = (Ok (VDict d), w') /\
    has_key "summary" d = true.
Proof.
  unfold test_detail.process_payload, try_except, bind.
  destruct (detail_mapper payload (VDict []) w) as [[r|e] w1] eqn:Hd.
  - destruct r; cbn; try discriminate.
    destruct (has_key "summary" d) eqn:Hk; cbn; [|discriminate].
    intros H. inversion H; subst. eauto.
  - destruct (is_Exception e); cbn; discriminate.
Qed.

(** X4: a corpus check that passes has checked every fixture: for each of
    them the detail mapper returned a mapping that has the key [summary]. *)
Theorem corpus_check_sound {World}
        (detail_mapper : value -> value -> M World value)
        (all_test_payloads : list (string * value)) (w w' : World) :
  test_detail.test_all_payloads_process_successfully
    detail_mapper all_test_payloads w = (Ok tt, w') ->
  forall filename payload,
    In (filename, payload) all_test_payloads ->
    exists u u' d,
      detail_mapper payload (VDict []) u = (Ok (VDict d), u') /\
      has_key "summary" d = true.
Proof.
  intros H filename payload Hin.
  destruct (for_each_passes _ _ _ _ H _ Hin) as (u & u' & Hb).
  destruct (process_payload_passes _ _ _ _ _ Hb) as (d & Hd & Hk).
  eauto.
Qed.

Lemma integrate_payload_passes {World}
      (detail_mapper : value -> value -> M World value)
      (display_mapper : value -> value -> value -> M World value)
      attestation payload w w' :
  test_display.integrate_payload
    detail_mapper display_mapper attestation payload w = (Ok tt, w') ->
  exists d mapped_detail u r,
    payload = VDict d /\
    detail_mapper payload (VDict []) w = (Ok mapped_detail, u) /\
    display_mapper (VDict (dict_set d "detail" mapped_detail)) attestation
                   (VDict []) u
    = (Ok (VDict r), w') /\
    has_key "description" r = true /\ has_key "tag" r = true.
Proof.
  unfold test_display.integrate_payload. unfold bind at 1.
  destruct (detail_mapper payload (VDict []) w) as [[m|e] u] eqn:Hd;
    [|discriminate].
  destruct payload as [| | | | | |d]; try discriminate.
  unfold bind at 1. cbn [splat_with ret]. unfold try_except, bind.
  destruct (display_mapper (VDict (dict_set d "detail" m)) attestation
                           (VDict []) u) as [[r|e] u1] eqn:Hdisp.
  - destruct r as [| | | | | |rd]; cbn; try discriminate.
    destruct (has_key "description" rd) eqn:H1; cbn; [|discriminate].
    destruct (has_key "tag" rd) eqn:H2; cbn; [|discriminate].
    intros H. inversion H; subst.
    exists d, m, u, rd. auto.
  - destruct (is_Exception e); cbn; discriminate.
Qed.

(** X5: an integration check that passes has run both stages on every
    payload: the payload is a mapping, the detail mapper returned on it, and
    the display mapper, called on the payload with that output spliced in as
    its [detail], returned a mapping that has the keys [description] and
    [tag]. *)
Theorem integration_check_sound {World}
        (detail_mapper : value -> value -> M World value)
        (display_mapper : value -> value -> value -> M World value)
        (test_payloads : list value) (sample_attestation : value)
        (w w' : World) :
  test_display.test_display_works_with_detail_output
    detail_mapper display_mapper test_payloads sample_attestation w
  = (Ok tt, w') ->
  forall payload,
    In payload test_payloads ->
    exists d mapped_detail u1 u2 u3 r,
      payload = VDict d /\
      detail_mapper payload (VDict []) u1 = (Ok mapped_detail, u2) /\
      display_mapper (VDict (dict_set d "detail" mapped_detail))
                     sample_attestation (VDict []) u2
      = (Ok (VDict r), u3) /\
      has_key "description" r = true /\ has_key "tag" r = true.
Proof.
  intros H payload Hin.
  destruct (for_each_passes _ _ _ _ H _ Hin) as (u & u' & Hb).
  destruct (integrate_payload_passes _ _ _ _ _ _ Hb)
    as (d & m & u2 & r & Hp & Hd & Hdisp & H1 & H2).
  exists d, m, u, u2, u', r. auto.
Qed.

(** ** The checks on the quickstart control *)

(** X6: with the quickstart detail mapper the corpus check passes on the
    empty corpus only.  On any other corpus it fails at the first fixture,
    with the message of [pytest.fail] that starts with that fixture's file
    name: the missing [summary] when the mapper returned, the mapper's
    [AttributeError] otherwise. *)
Theorem quickstart_corpus_check {World} (w : World) :
  test_detail.test_all_payloads_process_successfully detail.main [] w
  = (Ok tt, w) /\
  forall filename payload rest,
    test_detail.test_all_payloads_process_successfully
      detail.main ((filename, payload) :: rest) w
    = (Raise (Failed
                (filename ++ ": Failed to process: "
                   ++ match without_get payload with
                      | None => filename ++ ": Should have summary"
                      | Some v =>
                          "'" ++ type_name v
                              ++ "' object has no attribute 'get'"
                      end)), w).
Proof.
  split; [reflexivity|]. intros filename payload rest.
  unfold test_detail.test_all_payloads_process_successfully.
  cbn [for_each]. apply bind_Raise.
  unfold test_detail.process_payload, try_except, bind.
  destruct (without_get payload) as [v|] eqn:Hw.
  - rewrite (detail_main_without_get payload (VDict []) v w Hw). reflexivity.
  - destruct (without_get_None _ Hw) as [e He].
    rewrite (detail_main_on_detail payload (VDict []) e w He). reflexivity.
Qed.

(** X7: with the quickstart mappers the integration check passes exactly on
    the corpora all of whose payloads are mappings with a [detail] that is
    absent or a mapping; on any other corpus it stops at the first payload
    that is not, with the bare [AttributeError] of the detail mapper. *)
Theorem quickstart_integration_check {World} {R : Repr}
        (sample_attestation : value) (w : World) :
  (forall test_payloads,
      Forall (fun payload => without_get payload = None) test_payloads ->
      test_display.test_display_works_with_detail_output
        detail.main display.main test_payloads sample_attestation w
      = (Ok tt, w)) /\
  (forall pre payload post v,
      Forall (fun payload => without_get payload = None) pre ->
      without_get payload = Some v ->
      test_display.test_display_works_with_detail_output
        detail.main display.main (pre ++ payload :: post) sample_attestation w
      = (Raise (AttributeError
                  ("'" ++ type_name v ++ "' object has no attribute 'get'")),
         w)).
Proof.
  assert (Hall : forall test_payloads,
             Forall (fun payload => without_get payload = None) test_payloads ->
             test_display.test_display_works_with_detail_output
               detail.main display.main test_payloads sample_attestation w
             = (Ok tt, w)).
  { intros ps Hps. apply for_each_all. intros p Hp.
    rewrite Forall_forall in Hps.
    destruct (without_get_None _ (Hps p Hp)) as [e He].
    destruct (quickstart_pipeline_steps p sample_attestation e w He)
      as (_ & H). exact H. }
  split; [exact Hall|].
  intros pre payload post v Hpre Hv.
  eapply for_each_stops; [apply Hall, Hpre|].
  unfold test_display.integrate_payload. apply bind_Raise.
  apply detail_main_without_get. exact Hv.
Qed.

Lemma quickstart_integration_check_witness :
  test_display.test_display_works_with_detail_output
    (World := unit) detail.main (display.main (R := sample_Repr))
    [conftest.empty_occurrence; test_detail.malformed_occurrence]
    test_display.sample_attestation tt
  = (Ok tt, tt) /\
  test_display.test_display_works_with_detail_output
    (World := unit) detail.main (display.main (R := sample_Repr))
    ([conftest.empty_occurrence] ++ VDict [("detail", VInt 3)] :: [VNone])
    test_display.sample_attestation tt
  = (Raise (AttributeError "'int' object has no attribute 'get'"), tt).
Proof.
  split.
  - apply (proj1 (quickstart_integration_check
                    (R := sample_Repr) test_display.sample_attestation tt)).
    repeat constructor.
  - apply (proj2 (quickstart_integration_check
                    (R := sample_Repr) test_display.sample_attestation tt)
                 [conftest.empty_occurrence] (VDict [("detail", VInt 3)])
                 [VNone] (VInt 3)).
    + repeat constructor.
    + reflexivity.
Defined.

Lemma corpus_check_sound_witness :
  exists u u' d,
    (fun _ _ => ret (VDict [("summary", VDict [("total", VInt 0)])]))
      conftest.empty_occurrence (VDict []) u
    = (Ok (VDict d), u' : unit) /\
    has_key "summary" d = true.
Proof.
  apply (corpus_check_sound
           (World := unit)
           (fun _ _ => ret (VDict [("summary", VDict [("total", VInt 0)])]))
           [("occ_case_1.json", conftest.empty_occurrence)] tt tt eq_refl
           "occ_case_1.json" conftest.empty_occurrence).
  left. reflexivity.
Defined.

Lemma integration_check_sound_witness :
  exists d mapped_detail u1 u2 u3 r,
    conftest.empty_occurrence = VDict d /\
    detail.main conftest.empty_occurrence (VDict []) u1
    = (Ok mapped_detail, u2 : unit) /\
    display.main (R := sample_Repr) (VDict (dict_set d "detail" mapped_detail))
                 test_display.sample_attestation (VDict []) u2
    = (Ok (VDict r), u3) /\
    has_key "description" r = true /\ has_key "tag" r = true.
Proof.
  apply (integration_check_sound
           (World := unit) detail.main (display.main (R := sample_Repr))
           [conftest.empty_occurrence] test_display.sample_attestation tt tt
           eq_refl conftest.empty_occurrence).
  left. reflexivity.
Defined.

(** X8: the tests of test_detail.py on the quickstart detail mapper, for a
    sample occurrence that is a mapping whose [detail] is absent or a
    mapping: the tests of the return type pass, with an empty and with a
    [None] context, and the three remaining tests of [TestOutputStructure]
    fail, each with its own assertion, because the output has no
    [summary]. *)
Theorem quickstart_detail_against_test_detail {World}
        (sample_occurrence : value) e (w : World) :
  detail_or_default sample_occurrence e ->
  test_detail.test_main_returns_dict detail.main sample_occurrence w
  = (Ok tt, w) /\
  test_detail.test_main_does_not_raise_exception detail.main sample_occurrence w
  = (Ok tt, w) /\
  test_detail.test_handles_empty_context detail.main sample_occurrence w
  = (Ok tt, w) /\
  test_detail.test_handles_none_context detail.main sample_occurrence w
  = (Ok tt, w) /\
  test_detail.test_summary_is_dict detail.main sample_occurrence w
  = (Raise (AssertionError "'summary' must be a dictionary"), w) /\
  test_detail.test_returns_expected_top_level_fields
    detail.main sample_occurrence w
  = (Raise (AssertionError "Output must contain 'summary' field"), w) /\
  test_detail.test_summary_has_counts detail.main sample_occurrence w
  = (Raise (AssertionError "Summary should not be empty"), w).
Proof.
  intros H.
  pose proof (detail_main_on_detail sample_occurrence (VDict []) e w H) as Hd.
  unfold test_detail.test_main_returns_dict,
    test_detail.test_main_does_not_raise_exception,
    test_detail.test_handles_empty_context,
    test_detail.test_handles_none_context,
    test_detail.test_summary_is_dict,
    test_detail.test_returns_expected_top_level_fields,
    test_detail.test_summary_has_counts, try_except.
  rewrite !(bind_Ok _ _ _ _ _ Hd).
  repeat split; reflexivity.
Qed.

Lemma quickstart_detail_against_test_detail_witness :
  test_detail.test_main_returns_dict
    (World := unit) detail.main test_detail.sample_occurrence_fallback tt
  = (Ok tt, tt) /\
  test_detail.test_summary_has_counts
    (World := unit) detail.main test_detail.sample_occurrence_fallback tt
  = (Raise (AssertionError "Summary should not be empty"), tt).
Proof.
  destruct (quickstart_detail_against_test_detail
              test_detail.sample_occurrence_fallback
              [("scan", VDict [("results", VList [])])] tt eq_refl)
    as (H1 & _ & _ & _ & _ & _ & H7).
  split; [exact H1 | exact H7].
Defined.

(** X9: the tests of test_display.py on the quickstart display mapper, for
    every attestation.  For a sample occurrence that is a mapping whose
    [detail] is absent or a mapping, the tests of the return type, of the
    required fields and of the [violations] schema pass, as do the tests with
    an empty attestation and with a [None] context; the edge-case tests on
    the harness's own occurrences pass, the one on [None] inputs because the
    mapper's [AttributeError] is accepted. *)
Theorem quickstart_display_against_test_display {World} {R : Repr}
        (sample_occurrence sample_attestation : value) e (w : World) :
  detail_or_default sample_occurrence e ->
  test_display.test_main_returns_dict
    display.main sample_occurrence sample_attestation w = (Ok tt, w) /\
  test_display.test_returns_description_field
    display.main sample_occurrence sample_attestation w = (Ok tt, w) /\
  test_display.test_returns_tag_field
    display.main sample_occurrence sample_attestation w = (Ok tt, w) /\
  test_display.test_has_required_fields
    display.main sample_occurrence sample_attestation w = (Ok tt, w) /\
  test_display.test_violations_structure_if_present
    display.main sample_occurrence sample_attestation w = (Ok tt, w) /\
  test_display.test_handles_empty_attestation
    display.main sample_occurrence w = (Ok tt, w) /\
  test_display.test_handles_missing_context
    display.main sample_occurrence sample_attestation w = (Ok tt, w) /\
  test_display.test_handles_empty_occurrence
    display.main test_display.empty_occurrence sample_attestation w
  = (Ok tt, w) /\
  test_display.test_handles_missing_detail display.main sample_attestation w
  = (Ok tt, w) /\
  test_display.test_handles_missing_summary display.main sample_attestation w
  = (Ok tt, w) /\
  test_display.test_handles_none_inputs display.main w = (Ok tt, w).
Proof.
  intros H.
  assert (Hd : forall a c,
             display.main sample_occurrence a c w
             = (Ok (VDict [("description", VStr description);
                           ("tag", VStr ("Value: "
                                           ++ str (get_or_False "passed" e)))]),
                w))
    by (intros; apply display_main_on_detail, H).
  unfold test_display.test_main_returns_dict,
    test_display.test_returns_description_field,
    test_display.test_returns_tag_field,
    test_display.test_has_required_fields,
    test_display.test_violations_structure_if_present,
    test_display.test_handles_empty_attestation,
    test_display.test_handles_missing_context, try_except.
  rewrite !(bind_Ok _ _ _ _ _ (Hd _ _)).
  repeat split; try reflexivity.
  all: cbn; rewrite ?(bind_Ok _ _ _ _ _ (Hd _ _)), ?Hd; reflexivity.
Qed.

Lemma quickstart_display_against_test_display_witness :
  test_display.test_violations_structure_if_present
    (World := unit) (R := sample_Repr) (display.main (R := sample_Repr))
    test_display.sample_occurrence test_display.sample_attestation tt
  = (Ok tt, tt).
Proof.
  apply (quickstart_display_against_test_display
           (R := sample_Repr) test_display.sample_occurrence
           test_display.sample_attestation
           [("summary", VDict [("critical", VInt 2); ("high", VInt 5);
                               ("medium", VInt 10); ("low", VInt 20);
                               ("total", VInt 37)]);
            ("vulnerabilities", VList [])]
           tt eq_refl).
Defined.

(** ** [assert_structure] *)

Lemma items_from_In {A} (seen : list string) (d : list (string * A)) k v :
  In (k, v) (items_from seen d) <-> ~ In k seen /\ lookup k d = Some v.
Proof.
  revert seen. induction d as [|[k0 v0] d IH]; intros seen; simpl.
  - split; [contradiction | intros [_ H]; discriminate].
  - destruct (existsb (String.eqb k0) seen) eqn:Es.
    + apply existsb_exists in Es. destruct Es as (x & Hx & Ex).
      apply String.eqb_eq in Ex. subst x.
      rewrite IH. destruct (String.eqb_spec k0 k) as [->|Hk]; [|tauto].
      split; intros [Hn _]; contradiction.
    + assert (Hk0 : ~ In k0 seen).
      { intros Hin. apply Bool.not_true_iff_false in Es. apply Es.
        apply existsb_exists. exists k0. split; [exact Hin|].
        apply String.eqb_refl. }
      simpl. rewrite IH. simpl.
      destruct (String.eqb_spec k0 k) as [->|Hk].
      * split.
        -- intros [H|[Hn _]]; [inversion H; subst; auto | tauto].
        -- intros [_ H]. inversion H; subst. now left.
      * split.
        -- intros [H|[Hn H]]; [inversion H; subst; contradiction | tauto].
        -- intros [Hn H]. right. split; [|exact H].
           intros [E|Hin]; [congruence | contradiction].
Qed.

Lemma items_In {A} (d : list (string * A)) k v :
  In (k, v) (items d) <-> lookup k d = Some v.
Proof. unfold items. rewrite items_from_In. simpl. tauto. Qed.

Lemma items_from_map {A B} (h : string * A -> string * B) seen
      (d : list (string * A)) :
  (forall kv, fst (h kv) = fst kv) ->
  items_from seen (map h d) = map h (items_from seen d).
Proof.
  intros Hh. revert seen. induction d as [|[k0 v0] d IH]; intros seen; simpl;
    [reflexivity|].
  specialize (Hh (k0, v0)) as Hk. destruct (h (k0, v0)) as [k1 v1] eqn:E.
  simpl in Hk. subst k1.
  destruct (existsb (String.eqb k0) seen); simpl; rewrite ?E, IH; reflexivity.
Qed.

Lemma for_each_map {World A B} (f : A -> B) (body : B -> M World unit) xs w :
  for_each (map f xs) body w = for_each xs (fun x => body (f x)) w.
Proof.
  revert w. induction xs as [|x xs IH]; intros w; simpl; [reflexivity|].
  unfold bind. destruct (body (f x) w) as [[[]|e] w1]; [apply IH | reflexivity].
Qed.

Lemma for_each_ext {World A} (b1 b2 : A -> M World unit) xs w :
  (forall x u, In x xs -> b1 x u = b2 x u) ->
  for_each xs b1 w = for_each xs b2 w.
Proof.
  revert w. induction xs as [|x xs IH]; intros w H; simpl; [reflexivity|].
  unfold bind. rewrite (H x w (or_introl eq_refl)).
  destruct (b2 x w) as [[[]|e] w1]; [|reflexivity].
  apply IH. intros y u Hy. apply H. now right.
Qed.

(** The dict branch of [_assert], as the source writes its loop *)
Lemma _assert_dict {World} d entries path (w : World) :
  conftest._assert (VDict d) (conftest.SDict entries) path w
  = for_each (items entries) (conftest.assert_entry d path) w.
Proof.
  cbn [conftest._assert]. unfold items.
  rewrite items_from_map by reflexivity. rewrite for_each_map.
  apply for_each_ext. intros [k expected] u _. cbn [fst snd conftest.assert_entry].
  destruct (lookup k d) as [item|]; [|reflexivity].
  destruct expected as [t|es|[|first rest]|]; reflexivity.
Qed.

(** A loop of checks that leave the state alone and fail, if they fail, with
    an [AssertionError] whose message starts with [path] *)
Lemma for_each_checks {World A} (body : A -> M World unit) (P : A -> Prop)
      path xs (w : World) :
  (forall x, In x xs ->
     (body x w = (Ok tt, w) /\ P x) \/
     (exists msg, body x w = (Raise (AssertionError (path ++ msg)), w) /\ ~ P x)) ->
  (for_each xs body w = (Ok tt, w) /\ forall x, In x xs -> P x) \/
  (exists msg,
      for_each xs body w = (Raise (AssertionError (path ++ msg)), w) /\
      exists x, In x xs /\ ~ P x).
Proof.
  induction xs as [|x xs IH]; intros H; simpl.
  - left. split; [reflexivity | contradiction].
  - destruct (H x (or_introl eq_refl)) as [[Hb Hp]|(msg & Hb & Hp)].
    + rewrite (bind_Ok _ _ _ _ _ Hb).
      destruct IH as [[Hr Hall]|(msg & Hr & y & Hy & Hny)].
      * intros y Hy. apply H. now right.
      * left. split; [exact Hr|]. intros y [<-|Hy]; auto.
      * right. exists msg. split; [exact Hr|]. exists y. auto.
    + right. exists msg. split; [apply bind_Raise; exact Hb|].
      exists x. auto.
Qed.

Lemma assert_checks {World} (s : conftest.structure) :
  (forall obj path (w : World),
      (conftest._assert obj s path w = (Ok tt, w) /\ conforms obj s) \/
      (exists msg,
          conftest._assert obj s path w
          = (Raise (AssertionError (path ++ msg)), w) /\
          ~ conforms obj s)) /\
  match s with
  | conftest.SList (first :: _) =>
      forall obj path (w : World),
        (conftest._assert obj first path w = (Ok tt, w) /\ conforms obj first) \/
        (exists msg,
            conftest._assert obj first path w
            = (Raise (AssertionError (path ++ msg)), w) /\
            ~ conforms obj first)
  | _ => True
  end.
Proof.
  induction s as [t | entries IH | l IH | ] using conftest.structure_ind.
  - split; [|exact I]. intros obj path w. cbn [conftest._assert].
    destruct (conftest.isinstance obj t) eqn:Hi; cbn.
    + left. split; [reflexivity | now constructor].
    + right. eexists. split; [reflexivity|].
      intros Hc. inversion Hc; congruence.
  - split; [|exact I]. intros obj path w.
    destruct obj as [| | | | | |d];
      try (right; eexists; split; [reflexivity | intros Hc; inversion Hc]).
    rewrite _assert_dict.
    destruct (for_each_checks
                (conftest.assert_entry d path)
                (fun entry => exists item,
                     lookup (fst entry) d = Some item /\
                     entry_conforms item (snd entry))
                path (items entries) w) as [[Hr Hall]|(msg & Hr & x & Hx & Hnx)].
    + intros [k expected] Hin. cbn [fst snd conftest.assert_entry].
      apply items_In, lookup_In in Hin.
      rewrite Forall_forall in IH. specialize (IH _ Hin). cbn [snd] in IH.
      destruct (lookup k d) as [item|].
      * destruct expected as [t|es|[|first rest]|].
        -- destruct (conftest.isinstance item t) eqn:Hi; unfold assert_, raise.
           ++ left. split; [reflexivity|]. exists item.
              split; [reflexivity | now constructor].
           ++ right. eexists. split; [rewrite append_assoc; reflexivity|].
              intros (item' & E & Hc). inversion E; subst.
              inversion Hc; congruence.
        -- destruct (proj1 IH item (path ++ "." ++ k) w)
             as [[Hr Hc]|(msg & Hr & Hc)].
           ++ left. split; [exact Hr|]. exists item.
              split; [reflexivity | now constructor].
           ++ right. exists (("." ++ k) ++ msg).
              split; [rewrite Hr, append_assoc; reflexivity|].
              intros (item' & E & Hc'). inversion E; subst.
              inversion Hc'; contradiction.
        -- left. split; [reflexivity|]. exists item.
           split; [reflexivity | constructor].
        -- destruct item as [| | | | |[|item0 its]|];
             try (right; eexists; split;
                  [unfold bind, assert_, raise; cbn [is_list];
                   rewrite append_assoc; reflexivity
                  | intros (item' & E & Hc); inversion E; subst; inversion Hc]).
           ++ left. split; [reflexivity|]. eexists.
              split; [reflexivity | constructor].
           ++ destruct (proj2 IH item0 ((path ++ "." ++ k) ++ "[0]") w)
                as [[Hr Hc]|(msg & Hr & Hc)].
              ** left. split; [unfold bind, assert_, ret; cbn [is_list]; exact Hr|].
                 eexists.
                 split; [reflexivity | now constructor].
              ** right. exists ((("." ++ k) ++ "[0]") ++ msg). split.
                 --- unfold bind, assert_, ret. cbn [is_list].
                     rewrite Hr, !append_assoc. reflexivity.
                 --- intros (item' & E & Hc'). inversion E; subst.
                     inversion Hc'; contradiction.
        -- left. split; [reflexivity|]. exists item.
           split; [reflexivity | constructor].
      * right. eexists. split; [reflexivity|].
        intros (item & E & _). discriminate.
    + left. split; [exact Hr|]. constructor. intros key expected Hk.
      apply items_In in Hk. apply (Hall _ Hk).
    + right. exists msg. split; [exact Hr|]. intros Hc.
      inversion Hc as [|? ? Hall| |]; subst. apply Hnx.
      destruct x as [k expected]. apply Hall. now apply items_In.
  - split.
    + intros obj path w. left. split; [reflexivity | constructor].
    + destruct l as [|first rest]; [exact I|].
      inversion IH; subst. tauto.
  - split; [|exact I]. intros obj path w. left. split; [reflexivity | constructor].
Qed.

(** X10: [assert_structure] returns exactly when the object meets what the
    structure asks; when it does not return, it raises an [AssertionError]
    whose message starts with the path ([root], for the call without a
    path), and nothing else: no [KeyError], [IndexError] or [TypeError]
    escapes, whatever the object is.  The interpreter state is left as it
    was either way. *)
Theorem assert_structure_checks {World} (obj : value)
        (structure_ : conftest.structure) (path : string) (w : World) :
  (conftest._assert obj structure_ path w = (Ok tt, w) <->
   conforms obj structure_) /\
  (conftest.assert_structure obj structure_ w = (Ok tt, w) <->
   conforms obj structure_) /\
  (conforms obj structure_ \/
   exists msg,
     conftest._assert obj structure_ path w
     = (Raise (AssertionError (path ++ msg)), w)) /\
  (conforms obj structure_ \/
   exists msg,
     conftest.assert_structure obj structure_ w
     = (Raise (AssertionError ("root" ++ msg)), w)).
Proof.
  assert (H : forall p,
             (conftest._assert obj structure_ p w = (Ok tt, w) <->
              conforms obj structure_) /\
             (conforms obj structure_ \/
              exists msg,
                conftest._assert obj structure_ p w
                = (Raise (AssertionError (p ++ msg)), w))).
  { intros p.
    destruct (proj1 (assert_checks structure_) obj p w)
      as [[Hr Hc]|(msg & Hr & Hc)].
    - split; [tauto | now left].
    - split; [|right; eauto]. rewrite Hr. split; [discriminate | contradiction]. }
  destruct (H path) as [H1 H2]. destruct (H "root") as [H3 H4].
  unfold conftest.assert_structure. tauto.
Qed.

Lemma assert_structure_checks_witness :
  conftest.assert_structure
    (World := unit)
    (VDict [("summary", VDict [("total", VBool true)]);
            ("vulnerabilities", VList [VDict [("id", VStr "a")]; VInt 7])])
    (conftest.SDict
       [("summary", conftest.SDict [("total", conftest.SType conftest.TInt)]);
        ("vulnerabilities",
         conftest.SList
           [conftest.SDict [("id", conftest.SType conftest.TStr)]])])
    tt
  = (Ok tt, tt) /\
  ~ conforms (VDict [("summary", VList [])])
             (conftest.SDict [("summary", conftest.SType conftest.TDict)]).
Proof.
  split; [reflexivity|]. intros Hc.
  apply (proj1 (assert_structure_checks
                  (World := unit) (VDict [("summary", VList [])])
                  (conftest.SDict [("summary", conftest.SType conftest.TDict)])
                  "root" tt)) in Hc.
  vm_compute in Hc. discriminate Hc.
Defined.

Lemma type_name_first_items v : type_name (first_items v) = type_name v.
Proof. destruct v as [| | | | |[|x l]|]; reflexivity. Qed.

Lemma isinstance_first_items v t :
  conftest.isinstance (first_items v) t = conftest.isinstance v t.
Proof. destruct v as [| | | | |[|x l]|], t; reflexivity. Qed.

Lemma assert_first_items {World} (s : conftest.structure) :
  (forall obj path (w : World),
      conftest._assert (first_items obj) s path w
      = conftest._assert obj s path w) /\
  match s with
  | conftest.SList (first :: _) =>
      forall obj path (w : World),
        conftest._assert (first_items obj) first path w
        = conftest._assert obj first path w
  | _ => True
  end.
Proof.
  induction s as [t | entries IH | l IH | ] using conftest.structure_ind.
  - split; [|exact I]. intros obj path w. cbn [conftest._assert].
    now rewrite isinstance_first_items, type_name_first_items.
  - split; [|exact I]. intros obj path w.
    destruct obj as [| | | | |[|x l]|d]; try reflexivity.
    cbn [first_items]. rewrite !_assert_dict.
    apply for_each_ext. intros [k expected] u Hin.
    cbn [conftest.assert_entry]. rewrite lookup_map_snd.
    apply items_In, lookup_In in Hin.
    rewrite Forall_forall in IH. specialize (IH _ Hin). cbn [snd] in IH.
    destruct (lookup k d) as [item|]; [|reflexivity]. cbn [option_map].
    destruct expected as [t|es|[|first rest]|]; try reflexivity.
    + now rewrite isinstance_first_items, type_name_first_items.
    + apply (proj1 IH).
    + destruct item as [| | | | |[|item0 its]|]; try reflexivity.
      cbn [first_items]. unfold bind, assert_, ret. cbn [is_list].
      apply (proj2 IH).
  - split; [reflexivity|].
    destruct l as [|first rest]; [exact I|]. inversion IH; subst. tauto.
  - split; [reflexivity | exact I].
Qed.

(** X11: [assert_structure] looks at the first item of a list and at no
    other: the outcome on an object is the outcome on the object with every
    list cut down to its first item, so an ill-formed second item is never
    reported. *)
Theorem assert_structure_first_item_only {World} (obj : value)
        (structure_ : conftest.structure) (path : string) (w : World) :
  conftest._assert obj structure_ path w
  = conftest._assert (first_items obj) structure_ path w /\
  conftest.assert_structure obj structure_ w
  = conftest.assert_structure (first_items obj) structure_ w.
Proof.
  unfold conftest.assert_structure.
  split; symmetry; apply (proj1 (assert_first_items structure_)).
Qed.

(** X12: [assert_structure] looks in a dict at the keys the structure names
    and at no other: two dicts that agree on those keys get the same outcome,
    whatever else they hold. *)
Theorem assert_structure_named_keys_only {World}
        (d d' : list (string * value))
        (entries : list (string * conftest.structure))
        (path : string) (w : World) :
  (forall key, has_key key entries = true -> lookup key d = lookup key d') ->
  conftest._assert (VDict d) (conftest.SDict entries) path w
  = conftest._assert (VDict d') (conftest.SDict entries) path w.
Proof.
  intros H. rewrite !_assert_dict. apply for_each_ext.
  intros [k expected] u Hin. apply items_In in Hin.
  cbn [conftest.assert_entry]. rewrite (H k); [reflexivity|].
  unfold has_key. now rewrite Hin.
Qed.

Lemma assert_structure_named_keys_only_witness :
  conftest._assert
    (World := unit)
    (VDict [("summary", VDict []); ("extra", VInt 1)])
    (conftest.SDict [("summary", conftest.SType conftest.TDict)]) "root" tt
  = conftest._assert
      (VDict [("summary", VDict [])])
      (conftest.SDict [("summary", conftest.SType conftest.TDict)]) "root" tt.
Proof.
  apply (assert_structure_named_keys_only
           [("summary", VDict []); ("extra", VInt 1)] [("summary", VDict [])]
           [("summary", conftest.SType conftest.TDict)] "root" tt).
  intros key. unfold has_key. cbn [lookup].
  destruct (String.eqb "summary" key); [reflexivity | discriminate].
Defined.

(** ** The schema check of [violations] *)

Lemma check_column_checks {World} {R : Repr} col_key col_def (w : World) :
  (test_display.check_column (col_key, col_def) w = (Ok tt, w) /\
   column_ok col_def) \/
  (exists msg,
      test_display.check_column (col_key, col_def) w
      = (Raise (AssertionError ("" ++ msg)), w) /\
      ~ column_ok col_def).
Proof.
  unfold test_display.check_column, column_ok.
  destruct col_def as [| | | | | |cd];
    try (right; eexists; split;
         [reflexivity | intros (cd & t & E & _); discriminate]).
  destruct (has_key "name" cd) eqn:Hn; unfold bind, assert_, ret, raise.
  - destruct (lookup "type" cd) as [ty|] eqn:Ht.
    + destruct ty as [| | | |t| |];
        try (right; eexists; split;
             [reflexivity
             | intros (cd' & t' & E & _ & Ht' & _); inversion E; subst;
               rewrite Ht in Ht'; discriminate]).
      destruct (existsb (String.eqb t) test_display.valid_types) eqn:Hv.
      * left. split; [reflexivity|]. exists cd, t.
        repeat split; try assumption.
        apply existsb_exists in Hv. destruct Hv as (x & Hx & E).
        apply String.eqb_eq in E. now subst.
      * right. eexists. split; [reflexivity|].
        intros (cd' & t' & E & _ & Ht' & Hin). inversion E; subst.
        rewrite Ht in Ht'. inversion Ht'; subst.
        apply Bool.not_true_iff_false in Hv. apply Hv.
        apply existsb_exists. exists t'. split; [exact Hin|].
        apply String.eqb_refl.
    + right. eexists. split; [reflexivity|].
      intros (cd' & t' & E & _ & Ht' & _). inversion E; subst.
      rewrite Ht in Ht'. discriminate.
  - right. eexists. split; [reflexivity|].
    intros (cd' & t' & E & Hn' & _). inversion E; subst. congruence.
Qed.

(** X13: the schema check of the harness, for any display mapper that
    returns a mapping.  The test passes exactly when the result has no
    [violations], or its [violations] is a mapping whose [columns] is a
    mapping each of whose columns is a mapping with a [name] and with a
    [type] that is one of [string], [number], [email], [url]; otherwise the
    test fails with an [AssertionError]. *)
Theorem violations_check_is_the_schema {World} {R : Repr}
        (display_mapper : value -> value -> value -> M World value)
        (sample_occurrence sample_attestation : value) r (w w1 : World) :
  display_mapper sample_occurrence sample_attestation (VDict []) w
  = (Ok (VDict r), w1) ->
  (test_display.test_violations_structure_if_present
     display_mapper sample_occurrence sample_attestation w
   = (Ok tt, w1) <->
   forall v, lookup "violations" r = Some v -> violations_ok v) /\
  ((forall v, lookup "violations" r = Some v -> violations_ok v) \/
   exists msg,
     test_display.test_violations_structure_if_present
       display_mapper sample_occurrence sample_attestation w
     = (Raise (AssertionError msg), w1)).
Proof.
  intros Hrun. unfold test_display.test_violations_structure_if_present.
  rewrite (bind_Ok _ _ _ _ _ Hrun). cbn [if_in_then_item].
  assert (Hbad : forall (m : M World unit) msg v,
             lookup "violations" r = Some v ->
             m w1 = (Raise (AssertionError msg), w1) ->
             ~ violations_ok v ->
             (m w1 = (Ok tt, w1) <->
              forall v, lookup "violations" r = Some v -> violations_ok v) /\
             ((forall v, lookup "violations" r = Some v -> violations_ok v) \/
              exists msg, m w1 = (Raise (AssertionError msg), w1))).
  { intros m msg v Hv Hm Hn. split.
    - rewrite Hm. split; [discriminate | intros H; elim Hn; auto].
    - right. eauto. }
  destruct (lookup "violations" r) as [v|] eqn:Hv.
  - destruct v as [| | | | | |vd];
      try (eapply Hbad; [reflexivity | reflexivity
                        | intros (vd & cols & E & _); discriminate]).
    destruct (lookup "columns" vd) as [cols|] eqn:Hc.
    + destruct cols as [| | | | | |columns];
        try (eapply Hbad; [reflexivity | reflexivity
                          | intros (vd' & cols & E & Hc' & _); inversion E; subst;
                            rewrite Hc in Hc'; discriminate]).
      destruct (for_each_checks
                  test_display.check_column
                  (fun column => column_ok (snd column))
                  "" (items columns) w1) as [[Hr Hall]|(msg & Hr & x & Hx & Hnx)].
      * intros [k c] _. apply check_column_checks.
      * assert (Hok : forall v0, Some (VDict vd) = Some v0 -> violations_ok v0).
        { intros v0 E. inversion E; subst. exists vd, columns.
          repeat split; try assumption. intros k c Hk.
          apply (Hall (k, c)). now apply items_In. }
        split; [tauto | now left].
      * eapply Hbad; [reflexivity | exact Hr|].
        intros (vd' & cols & E & Hc' & Hcols). inversion E; subst.
        rewrite Hc in Hc'. inversion Hc'; subst.
        destruct x as [k c]. apply Hnx. apply (Hcols k). now apply items_In.
    + eapply Hbad; [reflexivity | reflexivity|].
      intros (vd' & cols & E & Hc' & _). inversion E; subst.
      rewrite Hc in Hc'. discriminate.
  - split; [|left; intros v E; discriminate].
    split; [intros _ v E; discriminate | reflexivity].
Qed.

Lemma violations_check_is_the_schema_witness :
  test_display.test_violations_structure_if_present
    (World := unit) (R := sample_Repr)
    (fun _ _ _ =>
       ret (VDict [("description", VStr "d"); ("tag", VStr "t");
                   ("violations",
                    VDict [("columns",
                            VDict [("id", VDict [("name", VStr "ID");
                                                 ("type", VStr "text")])])])]))
    VNone VNone tt
  = (Raise
       (AssertionError
          "Column 'id' type must be one of ['string', 'number', 'email', 'url'], got 'text'"),
     tt) /\
  ~ violations_ok
      (VDict [("columns",
               VDict [("id", VDict [("name", VStr "ID");
                                    ("type", VStr "text")])])]).
Proof.
  split; [reflexivity|]. intros Hok.
  pose proof (proj2 (proj1 (violations_check_is_the_schema
                              (World := unit) (R := sample_Repr)
                              (fun _ _ _ =>
                                 ret (VDict [("description", VStr "d");
                                             ("tag", VStr "t");
                                             ("violations",
                                              VDict [("columns",
                                                      VDict [("id",
                                                              VDict [("name", VStr "ID");
                                                                     ("type", VStr "text")])])])]))
                              VNone VNone _ tt tt eq_refl))) as Hpass.
  assert (Hall : forall v,
             lookup "violations"
                    [("description", VStr "d"); ("tag", VStr "t");
                     ("violations",
                      VDict [("columns",
                              VDict [("id", VDict [("name", VStr "ID");
                                                   ("type", VStr "text")])])])]
             = Some v -> violations_ok v)
    by (intros v E; inversion E; subst; exact Hok).
  specialize (Hpass Hall). vm_compute in Hpass. discriminate Hpass.
Defined.

(** ** [json_diff]: every difference, and both argument orders *)

Lemma contains_prefix a s : String.prefix a s = true -> contains a s = true.
Proof. intros H. destruct s; cbn [contains]; now rewrite H. Qed.

Lemma contains_append_l a s t : contains a s = true -> contains a (s ++ t) = true.
Proof.
  induction s as [|ch s IH].
  - destruct a; [intros _; now destruct t | discriminate].
  - cbn [contains]. intros H.
    change (String ch s ++ t) with (String ch (s ++ t)). cbn [contains].
    destruct (String.prefix a (String ch s)) eqn:Hp.
    + pose proof (prefix_append_r _ _ t Hp) as Hp'.
      change (String ch s ++ t) with (String ch (s ++ t)) in Hp'.
      now rewrite Hp'.
    + rewrite (IH H). now destruct (String.prefix a (String ch (s ++ t))).
Qed.

Lemma contains_append_r a s t : contains a t = true -> contains a (s ++ t) = true.
Proof.
  intros H. induction s as [|ch s IH]; [exact H|].
  change (String ch s ++ t) with (String ch (s ++ t)). cbn [contains].
  rewrite IH. now destruct (String.prefix a (String ch (s ++ t))).
Qed.

Lemma contains_join a sep e xs :
  In e xs -> contains a e = true -> contains a (join sep xs) = true.
Proof.
  intros Hin Ha. induction xs as [|x xs IH]; [contradiction|].
  cbn [join]. destruct xs as [|x' xs].
  - destruct Hin as [->|[]]. exact Ha.
  - destruct Hin as [->|Hin].
    + now apply contains_append_l.
    + apply contains_append_r, contains_append_r. now apply IH.
Qed.

Lemma contains_nonempty a ch s : contains (String ch a) s = true -> s <> "".
Proof. intros H E. subst. discriminate. Qed.

Section JsonDiffMore.
Context {R : Repr} {SI : conftest.SetIter}.

Lemma list_diffs_In path i0 l1 l2 j v1 v2 :
  nth_error l1 j = Some v1 ->
  nth_error l2 j = Some v2 ->
  conftest._diff v1 v2 (path ++ "[" ++ str_nat (i0 + j) ++ "]") <> "" ->
  In (conftest._diff v1 v2 (path ++ "[" ++ str_nat (i0 + j) ++ "]"))
     (conftest.list_diffs path i0 l1 l2).
Proof.
  revert i0 l2 j. induction l1 as [|x l1 IH]; intros i0 [|y l2] [|j];
    cbn [nth_error conftest.list_diffs]; try discriminate.
  - intros H1 H2 Hne. inversion H1; inversion H2; subst.
    rewrite Nat.add_0_r in *. apply in_or_app. left.
    destruct (conftest._diff v1 v2 (path ++ "[" ++ str_nat i0 ++ "]"));
      [contradiction | now left].
  - intros H1 H2 Hne. apply in_or_app. right.
    rewrite Nat.add_succ_r in *. apply (IH (S i0)); assumption.
Qed.

Lemma append_colon_nonempty (a : string) : exists ch b, a ++ ": " = String ch b.
Proof. destruct a; simpl; eauto. Qed.

Lemma diff_reports x :
  forall y path p,
    reported_at p x y = true ->
    contains (path ++ render p ++ ": ") (conftest._diff x y path) = true.
Proof.
  assert (Htop : forall x y path,
             differ_at [] x y = true ->
             contains (path ++ render [] ++ ": ") (conftest._diff x y path)
             = true).
  { intros x0 y path H. apply contains_prefix. cbn [render].
    cbn [differ_at] in H.
    destruct (same_type x0 y) eqn:Ht; cbn [negb orb] in H.
    - destruct x0, y; try discriminate; cbn in H; try discriminate H.
      + cbn. rewrite H. apply (prefix_shift path). reflexivity.
      + cbn. rewrite H. apply (prefix_shift path). reflexivity.
      + cbn. rewrite H. apply (prefix_shift path). reflexivity.
      + cbn. rewrite H. apply (prefix_shift path). reflexivity.
      + rewrite _diff_list, H. apply (prefix_shift path). reflexivity.
    - replace (conftest._diff x0 y path)
        with (path ++ ": Type mismatch " ++ type_name x0 ++ " vs "
                   ++ type_name y)
        by (destruct x0, y; try discriminate; reflexivity).
      apply prefix_shift. reflexivity. }
  induction x as [| b | z | f | s | l1 IH | d1 IH] using value_ind;
    intros y path [|[k|i] p]; try (apply Htop);
    try (cbn [reported_at]; discriminate).
  - destruct y as [| | | | | l2 | ]; try (cbn [reported_at]; discriminate).
    cbn [reported_at].
    destruct (Nat.eqb (List.length l1) (List.length l2)) eqn:Hlen;
      [|discriminate]. cbn [andb].
    destruct (nth_error l1 i) as [v1|] eqn:H1; [|discriminate].
    destruct (nth_error l2 i) as [v2|] eqn:H2; [|discriminate].
    intros Hp. rewrite _diff_list, Hlen. cbn [negb].
    rewrite Forall_forall in IH.
    specialize (IH v1 (nth_error_In _ _ H1) v2
                   (path ++ "[" ++ str_nat i ++ "]") p Hp).
    replace (path ++ render (Index i :: p) ++ ": ")
      with ((path ++ "[" ++ str_nat i ++ "]") ++ render p ++ ": ")
      by (cbn [render render_step]; now rewrite !append_assoc).
    eapply contains_join; [|exact IH].
    apply (list_diffs_In path 0 l1 l2 i v1 v2 H1 H2). cbn [Nat.add].
    destruct (append_colon_nonempty
                ((path ++ "[" ++ str_nat i ++ "]") ++ render p))
      as (ch & b & E).
    rewrite append_assoc in E. rewrite E in IH.
    apply (contains_nonempty _ _ _ IH).
  - destruct y as [| | | | | | d2]; try (cbn [reported_at]; discriminate).
    cbn [reported_at]. rewrite _diff_dict. intros Hp.
    assert (Hin : forall e,
               In e (conftest.key_diffs d1 d2 path k) ->
               In k (keys d1 ++ keys d2) ->
               In e (flat_map (conftest.key_diffs d1 d2 path)
                              (conftest.set_iter (keys d1 ++ keys d2)))).
    { intros e He Hk. apply in_flat_map. exists k. split; [|exact He].
      now apply conftest.set_iter_In. }
    unfold conftest.key_diffs in Hin.
    destruct (lookup k d1) as [v1|] eqn:E1.
    + assert (Hk : In k (keys d1 ++ keys d2)).
      { apply in_or_app. left. apply has_key_In. unfold has_key. now rewrite E1. }
      destruct (lookup k d2) as [v2|] eqn:E2.
      * rewrite Forall_forall in IH.
        specialize (IH (k, v1) (lookup_In _ _ _ E1) v2 (path ++ "." ++ k) p Hp).
        cbn [snd] in IH.
        replace (path ++ render (Key k :: p) ++ ": ")
          with ((path ++ "." ++ k) ++ render p ++ ": ")
          by (cbn [render render_step]; now rewrite !append_assoc).
        eapply contains_join; [|exact IH]. apply Hin; [|exact Hk].
        destruct (append_colon_nonempty ((path ++ "." ++ k) ++ render p))
          as (ch & b & E).
        rewrite append_assoc in E. rewrite E in IH.
        apply contains_nonempty in IH.
        destruct (conftest._diff v1 v2 (path ++ "." ++ k));
          [contradiction | now left].
      * destruct p; [|discriminate].
        eapply contains_join; [apply Hin; [now left | exact Hk]|].
        apply contains_prefix. cbn [render render_step].
        rewrite append_empty_r, !append_assoc.
        apply (prefix_shift path), (prefix_shift "."), (prefix_shift k).
        reflexivity.
    + destruct (lookup k d2) as [v2|] eqn:E2; [|discriminate].
      destruct p; [|discriminate].
      assert (Hk : In k (keys d1 ++ keys d2)).
      { apply in_or_app. right. apply has_key_In. unfold has_key. now rewrite E2. }
      eapply contains_join; [apply Hin; [now left | exact Hk]|].
      apply contains_prefix. cbn [render render_step].
      rewrite append_empty_r, !append_assoc.
      apply (prefix_shift path), (prefix_shift "."), (prefix_shift k).
      reflexivity.
Qed.

(** X14: [json_diff] reports every difference, not the first one only: for
    every path at which the two values differ (a type, a list length, a
    scalar, or a key one side lacks; the lists above the path having equal
    lengths), the report holds that path followed by a colon. *)
Theorem json_diff_reports_every_difference (x y : value) (path : string)
        (p : list step) :
  reported_at p x y = true ->
  contains (path ++ render p ++ ": ") (conftest._diff x y path) = true /\
  contains (render p ++ ": ") (conftest.json_diff x y) = true.
Proof.
  intros H. split; [now apply diff_reports|].
  apply (diff_reports x y "" p H).
Qed.

Lemma float_compare_eq_sym a b : SpecFloat.SFeqb a b = SpecFloat.SFeqb b a.
Proof.
  unfold SpecFloat.SFeqb, SpecFloat.SFcompare.
  destruct a as [sa|sa| |sa ma ea], b as [sb|sb| |sb mb eb]; try reflexivity;
    try (destruct sa, sb; reflexivity);
    try (destruct sa; reflexivity); try (destruct sb; reflexivity).
  destruct sa, sb; try reflexivity;
    rewrite (Z.compare_antisym ea eb);
    destruct (Z.compare ea eb); simpl; try reflexivity;
    replace (Pos.compare_cont Eq mb ma)
      with (CompOpp (Pos.compare_cont Eq ma mb))
      by apply (Pos.compare_cont_antisym ma mb Eq);
    destruct (Pos.compare_cont Eq ma mb); reflexivity.
Qed.

Lemma float_eqb_sym f g : PrimFloat.eqb f g = PrimFloat.eqb g f.
Proof. rewrite !FloatAxioms.eqb_spec. apply float_compare_eq_sym. Qed.

Lemma struct_eq_sym x : forall y, struct_eq x y -> struct_eq y x.
Proof.
  induction x as [| b | z | f | s | l1 IH | d1 IH] using value_ind;
    intros y H; destruct y as [| b' | z' | f' | s' | l2 | d2];
    inversion H as [ | | | ? ? Hf | | ? ? HF2 | ? ? Hk Hv]; subst;
    try constructor.
  - now rewrite float_eqb_sym.
  - clear H. revert l2 HF2. induction IH as [|x l1 Hx _ IHl]; intros l2 HF2;
      inversion HF2; subst; constructor; auto.
  - intros k. symmetry. apply Hk.
  - intros k v2 v1 H2 H1. rewrite Forall_forall in IH.
    apply (IH (k, v1) (lookup_In _ _ _ H1)). eapply Hv; eassumption.
Qed.

(** X15: whether [json_diff] finds a difference does not depend on the order
    of its two arguments, nor on the path it is started with:
    [_diff(x, y, path)] is empty exactly when [_diff(y, x, path')] is. *)
Theorem json_diff_empty_both_ways (x y : value) (path path' : string) :
  (conftest._diff x y path = "" <-> conftest._diff y x path' = "") /\
  (conftest.json_diff x y = "" <-> conftest.json_diff y x = "").
Proof.
  assert (H : forall a b p q,
             conftest._diff a b p = "" -> conftest._diff b a q = "").
  { intros a b p q E.
    apply struct_eq_diff_empty, struct_eq_sym, (diff_empty_struct_eq a b p E). }
  unfold conftest.json_diff. split; split; apply H.
Qed.
End JsonDiffMore.

Lemma json_diff_reports_every_difference_witness :
  contains
    ".a[1]: "
    (conftest.json_diff
       (R := sample_Repr) (SI := sample_SetIter)
       (VDict [("b", VInt 1); ("a", VList [VInt 1; VInt 2]); ("c", VNone)])
       (VDict [("a", VList [VInt 1; VInt 3]); ("b", VStr "x")]))
  = true /\
  contains
    ".c: "
    (conftest.json_diff
       (R := sample_Repr) (SI := sample_SetIter)
       (VDict [("b", VInt 1); ("a", VList [VInt 1; VInt 2]); ("c", VNone)])
       (VDict [("a", VList [VInt 1; VInt 3]); ("b", VStr "x")]))
  = true.
Proof.
  split.
  - apply (json_diff_reports_every_difference
             (R := sample_Repr) (SI := sample_SetIter)
             (VDict [("b", VInt 1); ("a", VList [VInt 1; VInt 2]); ("c", VNone)])
             (VDict [("a", VList [VInt 1; VInt 3]); ("b", VStr "x")])
             "" [Key "a"; Index 1]).
    reflexivity.
  - apply (json_diff_reports_every_difference
             (R := sample_Repr) (SI := sample_SetIter)
             (VDict [("b", VInt 1); ("a", VList [VInt 1; VInt 2]); ("c", VNone)])
             (VDict [("a", VList [VInt 1; VInt 3]); ("b", VStr "x")])
             "" [Key "c"]).
    reflexivity.
Defined.

Lemma json_diff_empty_both_ways_witness :
  conftest.json_diff
    (R := sample_Repr) (SI := sample_SetIter)
    (VDict [("a", VList [VInt 1; VFloat PrimFloat.zero]); ("b", VNone)])
    (VDict [("b", VNone); ("a", VList [VInt 1; VFloat PrimFloat.neg_zero])])
  = "".
Proof.
  apply (proj2 (json_diff_empty_both_ways
                  (R := sample_Repr) (SI := sample_SetIter)
                  (VDict [("b", VNone);
                          ("a", VList [VInt 1; VFloat PrimFloat.neg_zero])])
                  (VDict [("a", VList [VInt 1; VFloat PrimFloat.zero]);
                          ("b", VNone)])
                  "" "")).
  reflexivity.
Defined.
